(** * ContainerPrinter: a shallow embedding of [ContainerPrinter.hpp]

    The header prints standard-library compatible containers, pairs and
    tuples to [std::basic_ostream]s.  Its behaviour is decided at two
    levels, and both are embedded here:

    - at compile time, by template specialisation on the static type of the
      value ([Traits], [Decorator], the overload set of [ToStream] and the
      [enable_if] guard of [operator<<]);
    - at run time, by writes to the stream that is passed by reference
      through every call.

    Static types are data ([CType]); a specialisation is a [match] on that
    data, and whether an expression [stream << x] can be instantiated is a
    function of the types ([insertable], [instantiates]).  A stream is a
    record threaded through the calls; a call that the compiler would reject
    has no result ([None]), and neither has an insertion of the standard
    library whose output the value inserted does not determine. *)

From Stdlib Require Import ZArith NArith String Ascii DecimalString List.
From stdpp Require Import base option list gmap strings.

Set Warnings "-register-all".
Set Default Proof Using "Type".

(** ** Characters and text *)

(** The character types a stream or a string may be instantiated with. *)
Inductive CharacterType := char | wchar_t | char16_t | char32_t.

Global Instance CharacterType_eq_dec : EqDecision CharacterType.
Proof. solve_decision. Defined.

(** Text is a sequence of code units; which type the units have is recorded
    next to it (in the stream, in the [wrapper], in the value). *)
Definition text := list N.

(** A string literal of the source, in whichever width: all literals of the
    header are ASCII, so ["["] and [L"["] hold the same code units. *)
Definition lit (s : string) : text := map N_of_ascii (list_ascii_of_string s).

(** ** namespace Traits *)

Module Traits.

(** The five members the detection idiom of [is_printable_as_container]
    looks for in a class type. *)
Record members := Members {
  has_begin : bool;
  has_end : bool;
  has_empty : bool;
  has_value_type : bool;
  has_iterator : bool
}.

(** Static types, as far as the header tells them apart.  The class
    templates the header names in a specialisation have a constructor of
    their own; every other class type is described by its name, its
    template arguments and the members it declares.  Types are the
    unqualified ones that deduction of [const ContainerType&] yields. *)
Inductive CType :=
| t_int
| t_double
| t_char (c : CharacterType)
| t_pointer (t : CType)
| t_array (ArrayType : CType) (ArraySize : nat)
| std_basic_string (c : CharacterType)
| std_pair (FirstType SecondType : CType)
| std_tuple (DataTypes : list CType)
| std_set (DataType : CType)
| std_multiset (DataType : CType)
| t_class (name : string) (args : list CType) (m : members).

Definition container_members : members := Members true true true true true.

(** What the standard library declares for the class templates that have a
    constructor of their own; [None] for a type that is not a class. *)
Definition members_of (T : CType) : option members :=
  match T with
  | std_basic_string _ | std_set _ | std_multiset _ => Some container_members
  | std_pair _ _ | std_tuple _ => Some (Members false false false false false)
  | t_class _ _ m => Some m
  | _ => None
  end.

(** The [void_t] specialisation: [begin()], [end()], [empty()],
    [value_type] and [iterator] are all well-formed. *)
Definition detected (T : CType) : bool :=
  match members_of T with
  | Some m =>
      has_begin m && has_end m && has_empty m && has_value_type m && has_iterator m
  | None => false
  end.

(** [is_printable_as_container<Type>::value]: the most specialised
    matching specialisation decides. *)
Definition is_printable_as_container (T : CType) : bool :=
  match T with
  | std_basic_string _ => false
  | t_array (t_char char) _ => false
  | t_array (t_char wchar_t) _ => false
  | t_array _ _ => true
  | std_pair _ _ => true
  | std_tuple _ => true
  | _ => detected T
  end.

Definition is_printable_as_container_v (T : CType) : bool :=
  is_printable_as_container T.

Definition is_a_pair (T : CType) : bool :=
  match T with std_pair _ _ => true | _ => false end.

Definition is_a_tuple (T : CType) : bool :=
  match T with std_tuple _ => true | _ => false end.

Definition is_not_a_tuple (T : CType) : bool :=
  match T with std_tuple _ => false | _ => true end.

(** The template arguments of a [std::tuple]. *)
Definition DataTypes_of (T : CType) : list CType :=
  match T with std_tuple DataTypes => DataTypes | _ => [] end.

(** The type of [*std::begin(container)]: the element type of an array, the
    character type of a string, and for a class what the standard containers
    declare: the one type argument of a sequence or a set, the pair of key
    and mapped type of a map.  A class is described with these arguments;
    one described otherwise has no element type here. *)
Definition element_type_of (T : CType) : option CType :=
  match T with
  | t_array ArrayType _ => Some ArrayType
  | std_basic_string c => Some (t_char c)
  | std_set DataType => Some DataType
  | std_multiset DataType => Some DataType
  | t_class _ [DataType] _ => Some DataType
  | t_class _ [Key; Mapped] _ => Some (std_pair Key Mapped)
  | _ => None
  end.

(** What the body of the generic [ToStream] asks of its container:
    [is_empty(container)], [std::begin(container)] and [std::end(container)]
    are well-formed for an array and for a class with [empty()], [begin()]
    and [end()].  An array without elements is no type. *)
Definition iterable (T : CType) : bool :=
  match T with
  | t_array _ ArraySize => negb (Nat.eqb ArraySize 0)
  | _ => match members_of T with
         | Some m => has_begin m && has_end m && has_empty m
         | None => false
         end
  end.

Definition members_eqb (m m' : members) : bool :=
  Bool.eqb (has_begin m) (has_begin m') && Bool.eqb (has_end m) (has_end m')
  && Bool.eqb (has_empty m) (has_empty m')
  && Bool.eqb (has_value_type m) (has_value_type m')
  && Bool.eqb (has_iterator m) (has_iterator m').

(** Equality of types. *)
Fixpoint type_eqb (T T' : CType) : bool :=
  let fix all (l l' : list CType) : bool :=
    match l, l' with
    | [], [] => true
    | x :: l, x' :: l' => type_eqb x x' && all l l'
    | _, _ => false
    end in
  match T, T' with
  | t_int, t_int => true
  | t_double, t_double => true
  | t_char c, t_char c' => bool_decide (c = c')
  | t_pointer t, t_pointer t' => type_eqb t t'
  | t_array t n, t_array t' n' => type_eqb t t' && Nat.eqb n n'
  | std_basic_string c, std_basic_string c' => bool_decide (c = c')
  | std_pair a b, std_pair a' b' => type_eqb a a' && type_eqb b b'
  | std_tuple l, std_tuple l' => all l l'
  | std_set t, std_set t' => type_eqb t t'
  | std_multiset t, std_multiset t' => type_eqb t t'
  | t_class n l m, t_class n' l' m' =>
      String.eqb n n' && all l l' && members_eqb m m'
  | _, _ => false
  end.

(** Some standard class types, by what they declare. *)
Definition std_vector (T : CType) : CType :=
  t_class "std::vector" [T] container_members.
Definition std_unordered_set (T : CType) : CType :=
  t_class "std::unordered_set" [T] container_members.
Definition std_map (Key Mapped : CType) : CType :=
  t_class "std::map" [Key; Mapped] container_members.
Definition std_multimap (Key Mapped : CType) : CType :=
  t_class "std::multimap" [Key; Mapped] container_members.
Definition std_unordered_map (Key Mapped : CType) : CType :=
  t_class "std::unordered_map" [Key; Mapped] container_members.
(** [std::stack] has [empty()] and [value_type], but no iteration. *)
Definition std_stack (T : CType) : CType :=
  t_class "std::stack" [T] (Members false false true true false).

End Traits.

Import Traits.

(** ** namespace Decorator *)

Module Decorator.

(** [struct wrapper]: the member type alias and the three pointers. *)
Record wrapper := Wrapper {
  type : CharacterType;
  prefix : text;
  separator : text;
  suffix : text
}.

(** The data members of a [wrapper], in declaration order. *)
Definition wrapper_members (w : wrapper) : list text :=
  [prefix w; separator w; suffix w].

(** [delimiters<ContainerType, CharacterType>::values].  The primary
    template declares [values] and never defines it: only the [char] and
    [wchar_t] specialisations have a value. *)
Definition delimiters (ContainerType : CType) (CharacterType : CharacterType)
  : option wrapper :=
  match CharacterType with
  | char =>
      Some match ContainerType with
           | std_set _ => Wrapper char (lit "{") (lit ", ") (lit "}")
           | std_multiset _ => Wrapper char (lit "{") (lit ", ") (lit "}")
           | std_pair _ _ => Wrapper char (lit "(") (lit ", ") (lit ")")
           | std_tuple _ => Wrapper char (lit "<") (lit ", ") (lit ">")
           | _ => Wrapper char (lit "[") (lit ", ") (lit "]")
           end
  | wchar_t =>
      Some match ContainerType with
           | std_set _ => Wrapper wchar_t (lit "{") (lit ", ") (lit "}")
           | std_multiset _ => Wrapper wchar_t (lit "{") (lit ", ") (lit "}")
           | std_pair _ _ => Wrapper wchar_t (lit "(") (lit ", ") (lit ")")
           | std_tuple _ => Wrapper wchar_t (lit "<") (lit ", ") (lit ">")
           | _ => Wrapper wchar_t (lit "[") (lit ", ") (lit "]")
           end
  | _ => None
  end.

End Decorator.

Import Decorator.

(** ** Which insertions can be instantiated *)

Definition has_delimiters (T : CType) (W : CharacterType) : bool :=
  match delimiters T W with Some _ => true | None => false end.

(** Whether [stream << x] is well-formed for [x] of type [T] on a
    [std::basic_ostream<W>], with the header in scope.

    - Arithmetic types, characters and pointers have an inserter of the
      standard library on every stream (a character or pointer of another
      type by promotion or conversion).
    - [std::basic_string<c>] has one on the streams of its character type.
    - For a type that is printable as a container the [operator<<] of the
      header is chosen; instantiating it instantiates [ToStream] and
      [default_formatter], which needs the delimiters of the type for [W],
      and [stream << element] for the element type (lines 330, 408, 436),
      whether or not the container has elements at run time.
    - An array of [char] or [wchar_t] decays to a pointer.  An array without
      elements is no type.
    - Any other class type has no inserter. *)
Fixpoint insertable (W : CharacterType) (T : CType) : bool :=
  match T with
  | t_int | t_double | t_char _ | t_pointer _ => true
  | std_basic_string c => bool_decide (c = W)
  | t_array ArrayType ArraySize =>
      negb (Nat.eqb ArraySize 0)
      && (negb (is_printable_as_container T)
          || (has_delimiters T W && insertable W ArrayType))
  | std_pair FirstType SecondType =>
      has_delimiters T W && insertable W FirstType && insertable W SecondType
  | std_tuple DataTypes => has_delimiters T W && forallb (insertable W) DataTypes
  | std_set DataType => has_delimiters T W && insertable W DataType
  | std_multiset DataType => has_delimiters T W && insertable W DataType
  | t_class _ args _ =>
      is_printable_as_container T && has_delimiters T W
      && match args with
         | [DataType] => insertable W DataType
         | [Key; Mapped] =>
             has_delimiters (std_pair Key Mapped) W
             && insertable W Key && insertable W Mapped
         | _ => false
         end
  end.

(** ** Streams *)

(** A [std::basic_ostream<char_type>]: the characters written so far. *)
Record ostream := OStream {
  char_type : CharacterType;
  buffer : text
}.

(** A function that takes [StreamType& stream]: it updates the stream.  It
    has no result where the call is ill-formed, and where what the standard
    library prints is not determined by the value printed: the address of a
    pointer, a character outside ASCII widened by the locale of the stream, a
    number on a stream for whose character type the library has no facets. *)
Definition action := ostream -> option ostream.

Definition write (t : text) (stream : ostream) : ostream :=
  OStream (char_type stream) (buffer stream ++ t).

Definition nothing : action := fun stream => Some stream.
Definition ill_formed : action := fun _ => None.

Definition and_then (a b : action) : action :=
  fun stream => match a stream with Some stream' => b stream' | None => None end.

Notation "a >> b" := (and_then a b) (at level 61, left associativity).

(** A call that is well-formed only for some stream types. *)
Definition when (condition : CharacterType -> bool) (a : action) : action :=
  fun stream => if condition (char_type stream) then a stream else None.

(** The character types for which the standard library has streams with
    their facets. *)
Definition standard (W : CharacterType) : bool :=
  match W with char | wchar_t => true | _ => false end.

(** The characters that [widen] maps to the same code in every locale. *)
Definition is_ascii (chars : text) : bool := forallb (fun code => N.ltb code 128) chars.

(** [stream << n] for an integer with the default flags: decimal digits. *)
Definition decimal (z : Z) : text := lit (NilZero.string_of_int (Z.to_int z)).

(** [stream << p] for [p : const c*].  A string of the character type of the
    stream is copied.  A narrow string on a wide stream is widened character
    by character: ASCII keeps its codes, what other characters become is up
    to the locale.  A pointer to characters of any other type converts to
    [const void*] and its address is printed. *)
Definition insert_c_string (c : CharacterType) (chars : text) : action :=
  fun stream =>
    if decide (c = char_type stream) then Some (write chars stream)
    else if decide (c = char) then
      if decide (char_type stream = wchar_t) then
        if is_ascii chars then Some (write chars stream) else None
      else None
    else None.

(** [stream << ch] for a character: of the character type of the stream it
    is copied, a narrow one on a wide stream is widened, and a character of
    any other type is promoted to an integer and printed as a number. *)
Definition insert_character (c : CharacterType) (code : N) : action :=
  fun stream =>
    if decide (c = char_type stream) then Some (write [code] stream)
    else if decide (c = char) then insert_c_string c [code] stream
    else if standard (char_type stream)
         then Some (write (decimal (Z.of_N code)) stream)
         else None.

(** [stream << str] for [std::basic_string<c>]: declared only for the
    character type of the stream. *)
Definition insert_basic_string (c : CharacterType) (chars : text) : action :=
  fun stream =>
    if decide (c = char_type stream) then Some (write chars stream) else None.

(** [stream << n] for an [int]. *)
Definition insert_int (z : Z) : action :=
  fun stream =>
    if standard (char_type stream) then Some (write (decimal z) stream) else None.

(** ** The formatter and the three overloads of [ToStream]

    The header is generic in the element type and leaves [stream << element]
    to overload resolution; so is this section. *)

Section Printer.

Context {Element : Type}.

(** [stream << element] *)
Variable insert_element : Element -> action.

(** What [ToStream] asks of a [FormatterType].  [print_element] is a member
    template: [print_element_accepts] says for which stream and element
    types it can be instantiated. *)
Record Formatter := {
  print_prefix : action;
  print_element : Element -> action;
  print_element_accepts : CharacterType -> CType -> bool;
  print_delimiter : action;
  print_suffix : action
}.

(** [default_formatter<ContainerType, StreamType>::decorators] *)
Definition decorators (ContainerType : CType) (stream : ostream) : option wrapper :=
  delimiters ContainerType (char_type stream).

(** [stream << decorators.member] *)
Definition insert_decorator (ContainerType : CType) (member : wrapper -> text)
  : action :=
  fun stream =>
    match decorators ContainerType stream with
    | Some w => insert_c_string (type w) (member w) stream
    | None => None
    end.

Definition default_formatter (ContainerType : CType) : Formatter := {|
  print_prefix := insert_decorator ContainerType prefix;
  print_element := insert_element;
  print_element_accepts := insertable;
  print_delimiter := insert_decorator ContainerType separator;
  print_suffix := insert_decorator ContainerType suffix
|}.

(** [is_empty]: [container.empty()], and for arrays [!ArraySize] (which is
    [false] for every array type there is). *)
Definition is_empty (ContainerType : CType) (container : list Element) : bool :=
  match ContainerType with
  | t_array _ ArraySize => negb (negb (Nat.eqb ArraySize 0))
  | _ => match container with [] => true | _ => false end
  end.

(** [std::get<I>(tuple)] *)
Definition get (I : nat) (tuple : list Element) : option Element := tuple !! I.

Definition insert_get (I : nat) (tuple : list Element) : action :=
  match get I tuple with Some element => insert_element element | None => ill_formed end.

(** [tuple_handler<std::tuple<Types...>>::print].  The recursion removes
    the first type of the list and passes the whole tuple on; the element
    it prints afterwards is the one at index [sizeof...(Args)]. *)
Fixpoint tuple_handler (TupleType : CType) (Types : list CType)
    (container : list Element) : action :=
  match Types with
  | [] => nothing
  | [_] => insert_get 0 container
  | _ :: (_ :: _) as Args =>
      tuple_handler TupleType Args container
      >> insert_decorator TupleType separator
      >> insert_get (length Args) container
  end.

(** The overload for [std::tuple], enabled by [is_a_tuple]: it has no
    [FormatterType] parameter. *)
Definition ToStream_tuple (ContainerType : CType) (container : list Element) : action :=
  if is_a_tuple ContainerType then
    print_prefix (default_formatter ContainerType)
    >> tuple_handler ContainerType (DataTypes_of ContainerType) container
    >> print_suffix (default_formatter ContainerType)
  else ill_formed.

(** The overload for [std::pair]. *)
Definition ToStream_pair (FormatterType : Formatter) (first second : Element) : action :=
  print_prefix FormatterType
  >> print_element FormatterType first
  >> print_delimiter FormatterType
  >> print_element FormatterType second
  >> print_suffix FormatterType.

(** [std::for_each(begin, end, f)] *)
Fixpoint for_each (range : list Element) (f : Element -> action) : action :=
  match range with
  | [] => nothing
  | element :: rest => f element >> for_each rest f
  end.

(** Whether the body of the generic [ToStream] can be instantiated: the
    container can be asked for emptiness and iterated, and
    [Formatter::print_element(stream, *begin)] is well-formed for its
    element type.  This is decided from the types, whatever the container
    holds when it is printed. *)
Definition instantiates (FormatterType : Formatter) (ContainerType : CType)
    (W : CharacterType) : bool :=
  iterable ContainerType
  && match element_type_of ContainerType with
     | Some ElementType => print_element_accepts FormatterType W ElementType
     | None => false
     end.

(** The overload for containers that support the notion of emptiness,
    enabled by [is_not_a_tuple].  Dereferencing [begin] of a container
    without elements has no defined result. *)
Definition ToStream_container (FormatterType : Formatter) (ContainerType : CType)
    (container : list Element) : action :=
  when (fun W => is_not_a_tuple ContainerType
                 && instantiates FormatterType ContainerType W)
    (print_prefix FormatterType
     >> (if is_empty ContainerType container then print_suffix FormatterType
         else match container with
              | [] => ill_formed
              | first :: rest =>
                  print_element FormatterType first
                  >> for_each rest (fun element =>
                       print_delimiter FormatterType
                       >> print_element FormatterType element)
                  >> print_suffix FormatterType
              end)).

End Printer.

Arguments Formatter : clear implicits.

(** ** Values

    What the tests and the examples print: integers, characters, C strings,
    [std::basic_string]s, pairs, tuples, and arrays and class objects with
    their elements in iteration order. *)

Inductive value :=
| v_int (z : Z)
| v_char (c : CharacterType) (code : N)
| v_c_string (c : CharacterType) (chars : text)
| v_string (c : CharacterType) (chars : text)
| v_pair (first second : value)
| v_tuple (elements : list value)
| v_range (ContainerType : CType) (elements : list value).

Fixpoint type_of (v : value) : CType :=
  match v with
  | v_int _ => t_int
  | v_char c _ => t_char c
  | v_c_string c _ => t_pointer (t_char c)
  | v_string c _ => std_basic_string c
  | v_pair first second => std_pair (type_of first) (type_of second)
  | v_tuple elements => std_tuple (map type_of elements)
  | v_range ContainerType _ => ContainerType
  end.

(** The elements of a container, in the order in which they are printed. *)
Definition elements_of (v : value) : list value :=
  match v with
  | v_pair first second => [first; second]
  | v_tuple elements => elements
  | v_range _ elements => elements
  | _ => []
  end.

(** The number of elements of a container. *)
Definition size (v : value) : nat := length (elements_of v).

(** The elements of an array or class object have its element type. *)
Definition elements_typed (ContainerType : CType) (elements : list value) : bool :=
  match element_type_of ContainerType with
  | Some ElementType =>
      forallb (fun element => type_eqb (type_of element) ElementType) elements
  | None => true
  end.

(** An array has as many elements as its type says, and at least one; an
    object of a pair or tuple type is a [v_pair] or a [v_tuple]; the
    elements of an array or class object have its element type. *)
Definition well_shaped (v : value) : bool :=
  match v with
  | v_range (t_array _ ArraySize) elements =>
      Nat.eqb (length elements) ArraySize
      && negb (Nat.eqb ArraySize 0)
      && elements_typed (type_of v) elements
  | v_range (std_pair _ _) _ => false
  | v_range (std_tuple _) _ => false
  | v_range ContainerType elements => elements_typed ContainerType elements
  | _ => true
  end.

(** The characters of a character array up to its terminator: what
    [stream << array] prints once the array has decayed to a pointer. *)
Fixpoint c_str (elements : list value) : text :=
  match elements with
  | v_char _ code :: rest => if N.eqb code 0 then [] else code :: c_str rest
  | _ => []
  end.

(** The inserters of the standard library. *)
Definition native_insert (v : value) : action :=
  match v with
  | v_int z => insert_int z
  | v_char c code => insert_character c code
  | v_c_string c chars => insert_c_string c chars
  | v_string c chars => insert_basic_string c chars
  | v_range (t_array (t_char c) _) elements => insert_c_string c (c_str elements)
  | _ => ill_formed
  end.

(** An element whose insertion has already been resolved. *)
Definition run (element : action) : action := element.

(** [stream << element], as overload resolution settles it for an element:
    the [operator<<] of the header where its [enable_if] holds, which calls
    the overload of [ToStream] for the type with the default formatter; the
    standard library otherwise. *)
Fixpoint insert (v : value) : action :=
  match v with
  | v_pair first second =>
      ToStream_pair (default_formatter run (type_of v)) (insert first) (insert second)
  | v_tuple elements =>
      ToStream_tuple run (type_of v) (map insert elements)
  | v_range ContainerType elements =>
      if is_printable_as_container_v ContainerType then
        if is_a_pair ContainerType then ill_formed
        else ToStream_container (default_formatter run ContainerType) ContainerType
               (map insert elements)
      else native_insert v
  | _ => native_insert v
  end.

(** [ToStream(stream, container)], with the formatter the caller names, if
    any, in the spelling of the explicit template arguments with which the
    call is well-formed: for a pair, an array or a class the formatter is the
    fourth argument (with three, the tuple overload, whose guard the third
    argument replaces, is a second candidate and the call is ambiguous); for
    a tuple it is the third, which fills the unnamed parameter of the tuple
    overload and is not consulted.

    The generic overload is guarded by [is_not_a_tuple] alone: it is also
    chosen for a [std::basic_string], whose elements are its characters.
    For a scalar or a pointer [is_empty] cannot be instantiated. *)
Definition ToStream (FormatterType : option (Formatter value)) (container : value)
  : action :=
  match container with
  | v_tuple elements => ToStream_tuple insert (type_of container) elements
  | v_pair first second =>
      ToStream_pair
        (default (default_formatter insert (type_of container)) FormatterType)
        first second
  | v_range ContainerType elements =>
      if is_a_pair ContainerType then ill_formed
      else ToStream_container
             (default (default_formatter insert ContainerType) FormatterType)
             ContainerType elements
  | v_string c chars =>
      ToStream_container
        (default (default_formatter insert (type_of container)) FormatterType)
        (type_of container) (map (v_char c) chars)
  | _ => ill_formed
  end.

(** The [operator<<] of the header: it takes part in overload resolution
    only for a type that is printable as a container. *)
Definition operator_lshift (container : value) : action :=
  if is_printable_as_container_v (type_of container)
  then ToStream None container
  else ill_formed.

(** ** Streams as objects

    [operator<<] takes the stream by reference and returns a reference.  The
    streams of a program live at addresses. *)

Abbreviation address := positive (only parsing).
Abbreviation memory := (gmap positive ostream) (only parsing).

(** Run an action on the stream an address refers to. *)
Definition on_stream (stream : address) (a : action) (m : memory) : option memory :=
  match m !! stream with
  | Some s => match a s with
              | Some s' => Some (<[stream := s']> m)
              | None => None
              end
  | None => None
  end.

(** [auto& operator<<(StreamType& stream, const ContainerType& container)]:
    the reference it returns, and the memory it leaves. *)
Definition operator_lshift_ref (stream : address) (container : value) (m : memory)
  : option (address * memory) :=
  match on_stream stream (operator_lshift container) m with
  | Some m' => Some (stream, m')
  | None => None
  end.

(** ** A caller's formatter

    A formatter of the kind the caller may name: its own tokens, elements
    passed on to the stream. *)
Definition token_formatter (c : CharacterType) (pre sep suf : text) : Formatter value := {|
  print_prefix := insert_c_string c pre;
  print_element := insert;
  print_element_accepts := insertable;
  print_delimiter := insert_c_string c sep;
  print_suffix := insert_c_string c suf
|}.

Definition dollar_formatter : Formatter value :=
  token_formatter wchar_t (lit "$$ ") (lit " | ") (lit " $$").

(** ** What is printed, as text *)

(** The text an element contributes on a stream of the given character
    type. *)
Definition render (W : CharacterType) (v : value) : option text :=
  match insert v (OStream W []) with
  | Some stream => Some (buffer stream)
  | None => None
  end.

(** Renderings with a separator between successive ones. *)
Fixpoint join (sep : text) (parts : list text) : text :=
  match parts with
  | [] => []
  | [part] => part
  | part :: rest => part ++ sep ++ join sep rest
  end.

(** ** Sample values *)

Definition cout : ostream := OStream char [].
Definition wcout : ostream := OStream wchar_t [].

Definition sample_map : value :=
  v_range (std_map t_int (std_basic_string char))
    [ v_pair (v_int 1) (v_string char (lit "Template"));
      v_pair (v_int 2) (v_string char (lit "Meta"));
      v_pair (v_int 3) (v_string char (lit "Programming")) ].

(** The text of [sample_map] with every string between quote marks. *)
Definition quote_mark : text := [34%N].

Definition sample_map_quoted : text :=
  lit "[(1, " ++ quote_mark ++ lit "Template" ++ quote_mark
  ++ lit "), (2, " ++ quote_mark ++ lit "Meta" ++ quote_mark
  ++ lit "), (3, " ++ quote_mark ++ lit "Programming" ++ quote_mark ++ lit ")]".

Definition sample_vector : value :=
  v_range (std_vector t_int) [v_int 1; v_int 2; v_int 3; v_int 4].

Definition sample_tuple : value := v_tuple [v_int 1; v_int 2; v_int 3; v_int 4].

Definition hello : value :=
  v_range (t_array (t_char char) 6)
    (map (v_char char) (lit "Hello") ++ [v_char char 0%N]).

(** ** Reasoning principles *)

(** Induction on values, with the elements of tuples and ranges. *)
Section value_induction.

Variable P : value -> Prop.
Hypothesis P_int : forall z, P (v_int z).
Hypothesis P_char : forall c code, P (v_char c code).
Hypothesis P_c_string : forall c chars, P (v_c_string c chars).
Hypothesis P_string : forall c chars, P (v_string c chars).
Hypothesis P_pair : forall first second, P first -> P second -> P (v_pair first second).
Hypothesis P_tuple : forall elements, Forall P elements -> P (v_tuple elements).
Hypothesis P_range : forall T elements, Forall P elements -> P (v_range T elements).

Fixpoint value_nested_ind (v : value) : P v :=
  let fix all (l : list value) : Forall P l :=
    match l with
    | [] => @List.Forall_nil _ P
    | x :: l' => @List.Forall_cons _ P x l' (value_nested_ind x) (all l')
    end in
  match v with
  | v_int z => P_int z
  | v_char c code => P_char c code
  | v_c_string c chars => P_c_string c chars
  | v_string c chars => P_string c chars
  | v_pair first second =>
      P_pair first second (value_nested_ind first) (value_nested_ind second)
  | v_tuple elements => P_tuple elements (all elements)
  | v_range T elements => P_range T elements (all elements)
  end.

End value_induction.

(** An action that only appends: on a stream of character type [W] it adds
    the text [r] to whatever the buffer holds, or fails whatever it holds. *)
Definition emits (a : action) (W : CharacterType) (r : option text) : Prop :=
  forall buf, a (OStream W buf) = (fun t => OStream W (buf ++ t)) <$> r.

Definition appends (a : action) : Prop := forall W, exists r, emits a W r.

(** Each element prints its text. *)
Definition rendered {A} (W : CharacterType) (pe : A -> action)
    (xs : list A) (rs : list text) : Prop :=
  Forall2 (fun x r => emits (pe x) W (Some r)) xs rs.

(** A value of integers and of characters and strings of the character
    type [W], in pairs, tuples and printable arrays and class containers
    nested to any depth, each of which can be inserted on a stream of that
    character type. *)
Fixpoint textual (W : CharacterType) (v : value) : bool :=
  match v with
  | v_int _ => true
  | v_char c _ => bool_decide (c = W)
  | v_c_string c _ => bool_decide (c = W)
  | v_string c _ => bool_decide (c = W)
  | v_pair first second => textual W first && textual W second
  | v_tuple elements => forallb (textual W) elements
  | v_range ContainerType elements =>
      is_printable_as_container_v ContainerType
      && well_shaped v
      && insertable W ContainerType
      && forallb (textual W) elements
  end.

(** Parts between the delimiters of a type. *)
Definition framed (W : CharacterType) (T : CType) (parts : list text) : text :=
  match delimiters T W with
  | Some w => prefix w ++ join (separator w) parts ++ suffix w
  | None => []
  end.

(** The characters of a value and the delimiters of its containers, and
    nothing else: integers in decimal, every character and string as it
    is. *)
Fixpoint plain_text (W : CharacterType) (v : value) : text :=
  match v with
  | v_int z => decimal z
  | v_char _ code => [code]
  | v_c_string _ chars => chars
  | v_string _ chars => chars
  | v_pair first second =>
      framed W (type_of v) [plain_text W first; plain_text W second]
  | v_tuple elements => framed W (type_of v) (map (plain_text W) elements)
  | v_range ContainerType elements =>
      framed W ContainerType (map (plain_text W) elements)
  end.

(** A value that can be printed on a narrow and on a wide stream alike: it
    is [textual] for both, so it holds no character and no string. *)
Definition plain (v : value) : bool := textual char v && textual wchar_t v.

(** * Theorems *)

(** ** Actions that append *)

Lemma emits_nothing W : emits nothing W (Some []).
Proof. intros buf. unfold nothing. simpl. by rewrite app_nil_r. Qed.

Lemma emits_ill_formed W : emits ill_formed W None.
Proof. by intros buf. Qed.

Lemma emits_eq a W r r' : emits a W r -> r = r' -> emits a W r'.
Proof. by intros ? <-. Qed.

Lemma emits_when condition a W r :
  emits a W r -> emits (when condition a) W (if condition W then r else None).
Proof. intros Ha buf. unfold when. simpl. destruct (condition W); [apply Ha|done]. Qed.

Lemma emits_when_true condition a W r :
  condition W = true -> emits a W r -> emits (when condition a) W r.
Proof. intros Hc Ha. eapply emits_eq; [by apply emits_when|by rewrite Hc]. Qed.


Lemma emits_and_then a b W ra rb :
  emits a W ra -> emits b W rb ->
  emits (a >> b) W (ta ← ra; tb ← rb; Some (ta ++ tb)).
Proof.
  intros Ha Hb buf. unfold and_then. rewrite Ha.
  destruct ra as [ta|]; simpl; [|done].
  rewrite Hb. destruct rb as [tb|]; simpl; [|done].
  by rewrite app_assoc.
Qed.

Lemma emits_seq a b W ta tb :
  emits a W (Some ta) -> emits b W (Some tb) -> emits (a >> b) W (Some (ta ++ tb)).
Proof. intros Ha Hb. apply (emits_and_then _ _ _ _ _ Ha Hb). Qed.

Lemma emits_insert_c_string c chars W :
  emits (insert_c_string c chars) W
    (if decide (c = W) then Some chars
     else if decide (c = char) then
       if decide (W = wchar_t) then if is_ascii chars then Some chars else None
       else None
     else None).
Proof.
  intros buf. unfold insert_c_string. simpl.
  repeat case_decide; try done. by destruct (is_ascii chars).
Qed.

Lemma emits_insert_same c chars : emits (insert_c_string c chars) c (Some chars).
Proof.
  eapply emits_eq; [apply emits_insert_c_string|by rewrite decide_True].
Qed.

Lemma emits_insert_character c code W :
  emits (insert_character c code) W
    (if decide (c = W) then Some [code]
     else if decide (c = char) then
       if decide (W = wchar_t) then if is_ascii [code] then Some [code] else None
       else None
     else if standard W then Some (decimal (Z.of_N code)) else None).
Proof.
  intros buf. unfold insert_character, insert_c_string. simpl.
  repeat case_decide; try done.
  - by destruct (N.ltb code 128).
  - by destruct (standard W).
Qed.

Lemma emits_insert_basic_string c chars W :
  emits (insert_basic_string c chars) W (if decide (c = W) then Some chars else None).
Proof. intros buf. unfold insert_basic_string. simpl. case_decide; done. Qed.

Lemma emits_insert_int z W :
  emits (insert_int z) W (if standard W then Some (decimal z) else None).
Proof. intros buf. unfold insert_int. simpl. by destruct (standard W). Qed.

Lemma delimiters_type T W w : delimiters T W = Some w -> type w = W.
Proof. destruct W, T; simpl; intros; simplify_eq; done. Qed.

Lemma emits_insert_decorator T (member : wrapper -> text) W :
  emits (insert_decorator T member) W (member <$> delimiters T W).
Proof.
  intros buf. unfold insert_decorator, decorators. simpl.
  destruct (delimiters T W) as [w|] eqn:Hw; simpl; [|done].
  apply delimiters_type in Hw. unfold insert_c_string. simpl.
  by rewrite decide_True.
Qed.

Lemma appends_and_then a b : appends a -> appends b -> appends (a >> b).
Proof.
  intros Ha Hb W. destruct (Ha W) as [ra Hra], (Hb W) as [rb Hrb].
  eexists. by apply emits_and_then.
Qed.

Lemma appends_when condition a : appends a -> appends (when condition a).
Proof.
  intros Ha W. destruct (Ha W) as [r Hr]. eexists. by apply emits_when.
Qed.

Lemma appends_nothing : appends nothing.
Proof. intros W. eexists. apply emits_nothing. Qed.

Lemma appends_ill_formed : appends ill_formed.
Proof. intros W. eexists. apply emits_ill_formed. Qed.

Lemma appends_insert_c_string c chars : appends (insert_c_string c chars).
Proof. intros W. eexists. apply emits_insert_c_string. Qed.

Lemma appends_insert_decorator T member :
  appends (insert_decorator T member).
Proof. intros W. eexists. apply emits_insert_decorator. Qed.

Lemma appends_native_insert v : appends (native_insert v).
Proof.
  intros W. destruct v as [z|c code|c chars|c chars|a b|l|T l]; simpl;
    try (eexists; apply emits_ill_formed).
  - eexists. apply emits_insert_int.
  - eexists. apply emits_insert_character.
  - eexists. apply emits_insert_c_string.
  - eexists. apply emits_insert_basic_string.
  - destruct T as [| |c|t|[| |c|t|t n'|c|a b|l'|t|t|s l' m] n|c|a b|l'|t|t|s l' m];
      (eexists; first [apply emits_insert_c_string | apply emits_ill_formed]).
Qed.

(** ** The recursion of [tuple_handler] *)

Lemma tuple_handler_cons {A} (ins : A -> action) T t t' Ts xs :
  tuple_handler ins T (t :: t' :: Ts) xs
  = tuple_handler ins T (t' :: Ts) xs
    >> insert_decorator T separator
    >> insert_get ins (length (t' :: Ts)) xs.
Proof. done. Qed.

(** ** The overloads commute with a change of element representation *)

Section naturality.

Context {A : Type} (f : A -> action).

Lemma insert_get_map I (xs : list A) :
  insert_get run I (map f xs) = insert_get f I xs.
Proof.
  unfold insert_get, get. change (map f xs) with (f <$> xs).
  rewrite list_lookup_fmap. by destruct (xs !! I).
Qed.

Lemma tuple_handler_map T Ts (xs : list A) :
  tuple_handler run T Ts (map f xs) = tuple_handler f T Ts xs.
Proof.
  induction Ts as [|t Ts IH]; [done|].
  destruct Ts as [|t' Ts']; [apply insert_get_map|].
  by rewrite !tuple_handler_cons, IH, insert_get_map.
Qed.

Lemma ToStream_tuple_map T (xs : list A) :
  ToStream_tuple run T (map f xs) = ToStream_tuple f T xs.
Proof.
  unfold ToStream_tuple. destruct (is_a_tuple T); [|done].
  by rewrite tuple_handler_map.
Qed.

Lemma for_each_map (g : action -> action) (xs : list A) :
  for_each (map f xs) g = for_each xs (fun x => g (f x)).
Proof. induction xs as [|x xs IH]; simpl; [done|]. by rewrite IH. Qed.

Lemma is_empty_map T (xs : list A) : is_empty T (map f xs) = is_empty T xs.
Proof. destruct T, xs; done. Qed.

Lemma ToStream_container_map T (xs : list A) :
  ToStream_container (default_formatter run T) T (map f xs)
  = ToStream_container (default_formatter f T) T xs.
Proof.
  unfold ToStream_container. rewrite is_empty_map.
  destruct (is_not_a_tuple T); [|done].
  destruct xs as [|x xs]; simpl; [done|].
  by rewrite for_each_map.
Qed.

End naturality.

(** [insert] is the overload set it was defined to be. *)
Lemma insert_pair first second :
  insert (v_pair first second) = ToStream None (v_pair first second).
Proof. done. Qed.

Lemma insert_tuple elements :
  insert (v_tuple elements) = ToStream None (v_tuple elements).
Proof. exact (ToStream_tuple_map insert (type_of (v_tuple elements)) elements). Qed.

Lemma insert_range T elements :
  is_printable_as_container_v T = true ->
  insert (v_range T elements) = ToStream None (v_range T elements).
Proof.
  intros HT. unfold ToStream. cbn [insert]. rewrite HT.
  destruct (is_a_pair T); [done|].
  exact (ToStream_container_map insert T elements).
Qed.

Lemma insert_printable v :
  is_printable_as_container_v (type_of v) = true -> insert v = operator_lshift v.
Proof.
  intros Hv. unfold operator_lshift. rewrite Hv.
  destruct v; try discriminate Hv.
  - apply insert_pair.
  - apply insert_tuple.
  - by apply insert_range.
Qed.

Lemma insert_not_printable v :
  is_printable_as_container_v (type_of v) = false -> insert v = native_insert v.
Proof.
  intros Hv. destruct v; try done; try discriminate Hv.
  simpl in *. by rewrite Hv.
Qed.

(** ** Every insertion only appends *)

Section appending.

Context {A : Type} (ins : A -> action).

Lemma appends_insert_get I (xs : list A) :
  Forall (fun x => appends (ins x)) xs -> appends (insert_get ins I xs).
Proof.
  intros Hxs. unfold insert_get, get.
  destruct (xs !! I) as [x|] eqn:Hx; [|apply appends_ill_formed].
  eapply Forall_lookup_1 in Hxs; eauto.
Qed.

Lemma appends_tuple_handler T Ts (xs : list A) :
  Forall (fun x => appends (ins x)) xs -> appends (tuple_handler ins T Ts xs).
Proof.
  intros Hxs. induction Ts as [|t Ts IH]; [apply appends_nothing|].
  destruct Ts as [|t' Ts']; [by apply appends_insert_get|].
  rewrite tuple_handler_cons.
  repeat apply appends_and_then;
    auto using appends_insert_decorator, appends_insert_get.
Qed.

Lemma appends_ToStream_tuple T (xs : list A) :
  Forall (fun x => appends (ins x)) xs -> appends (ToStream_tuple ins T xs).
Proof.
  intros Hxs. unfold ToStream_tuple.
  destruct (is_a_tuple T); [|apply appends_ill_formed].
  repeat apply appends_and_then;
    [apply appends_insert_decorator
    |by apply appends_tuple_handler
    |apply appends_insert_decorator].
Qed.

Lemma appends_for_each (g : A -> action) (xs : list A) :
  Forall (fun x => appends (g x)) xs -> appends (for_each xs g).
Proof.
  induction 1; simpl; [apply appends_nothing|by apply appends_and_then].
Qed.

Lemma appends_ToStream_container T (xs : list A) :
  Forall (fun x => appends (ins x)) xs ->
  appends (ToStream_container (default_formatter ins T) T xs).
Proof.
  intros Hxs. unfold ToStream_container. apply appends_when.
  apply appends_and_then; [apply appends_insert_decorator|].
  destruct (is_empty T xs); [apply appends_insert_decorator|].
  destruct Hxs as [|x xs Hx Hxs]; [apply appends_ill_formed|].
  repeat apply appends_and_then; simpl; auto using appends_insert_decorator.
  apply appends_for_each.
  eapply Forall_impl; [exact Hxs|].
  intros y Hy. simpl. apply appends_and_then; auto using appends_insert_decorator.
Qed.

End appending.

Lemma appends_insert v : appends (insert v).
Proof.
  induction v as [z|c code|c chars|c chars|a b IHa IHb|l IH|T l IH]
    using value_nested_ind;
    try apply appends_native_insert.
  - rewrite insert_pair. unfold ToStream, ToStream_pair. simpl.
    repeat apply appends_and_then; auto using appends_insert_decorator.
  - rewrite insert_tuple. by apply appends_ToStream_tuple.
  - destruct (is_printable_as_container_v T) eqn:HT.
    + rewrite insert_range by done. unfold ToStream.
      destruct (is_a_pair T); [apply appends_ill_formed|].
      by apply appends_ToStream_container.
    + rewrite insert_not_printable by done. apply appends_native_insert.
Qed.

(** On any buffer, an element adds its rendering. *)
Lemma insert_render v W : emits (insert v) W (render W v).
Proof.
  destruct (appends_insert v W) as [r Hr]. unfold render.
  rewrite (Hr []). destruct r as [t|]; simpl; exact Hr.
Qed.

Lemma insert_rendered v W r buf :
  render W v = Some r -> insert v (OStream W buf) = Some (OStream W (buf ++ r)).
Proof. intros Hr. by rewrite (insert_render v W buf), Hr. Qed.

(** ** Joined text *)

Lemma join_snoc sep parts part :
  parts <> [] -> join sep (parts ++ [part]) = join sep parts ++ sep ++ part.
Proof.
  induction parts as [|p parts IH]; [done|intros _].
  destruct parts as [|p' parts]; [done|].
  change (join sep ((p :: p' :: parts) ++ [part]))
    with (p ++ sep ++ join sep ((p' :: parts) ++ [part])).
  rewrite IH by done.
  change (join sep (p :: p' :: parts)) with (p ++ sep ++ join sep (p' :: parts)).
  by rewrite <- !app_assoc.
Qed.

Lemma join_cons sep part parts :
  join sep (part :: parts) = part ++ concat (map (fun t => sep ++ t) parts).
Proof.
  revert part. induction parts as [|p parts IH]; intros part.
  - simpl. by rewrite app_nil_r.
  - change (join sep (part :: p :: parts)) with (part ++ sep ++ join sep (p :: parts)).
    rewrite IH. simpl. by rewrite <- app_assoc.
Qed.

(** The separators of a joined text: one less than there are parts. *)
Lemma join_length sep parts :
  length (join sep parts)
  = length (concat parts) + (length parts - 1) * length sep.
Proof.
  induction parts as [|p parts IH]; [done|].
  destruct parts as [|p' parts]; [simpl; rewrite app_nil_r; lia|].
  change (join sep (p :: p' :: parts)) with (p ++ sep ++ join sep (p' :: parts)).
  rewrite !length_app, IH. simpl. rewrite !length_app. lia.
Qed.

(** ** What the overloads print *)

Section closed_forms.

Context {A : Type} (ins : A -> action) (W : CharacterType).

Lemma insert_get_emits xs rs I r :
  rendered W ins xs rs -> rs !! I = Some r -> emits (insert_get ins I xs) W (Some r).
Proof.
  intros Hxs Hr. unfold insert_get, get.
  destruct (Forall2_lookup_r _ _ _ _ _ Hxs Hr) as (x & -> & Hx). done.
Qed.

Lemma tuple_handler_emits T w xs rs Ts :
  delimiters T W = Some w -> rendered W ins xs rs -> length Ts <= length rs ->
  emits (tuple_handler ins T Ts xs) W (Some (join (separator w) (take (length Ts) rs))).
Proof.
  intros Hw Hxs. induction Ts as [|t Ts IH]; intros Hlen.
  - apply emits_nothing.
  - destruct Ts as [|t' Ts'].
    + destruct rs as [|r rs']; [simpl in Hlen; lia|].
      simpl. by apply (insert_get_emits xs (r :: rs')).
    + rewrite tuple_handler_cons.
      destruct (lookup_lt_is_Some_2 rs (length (t' :: Ts'))) as [r Hr];
        [simpl in *; lia|].
      change (length (t :: t' :: Ts')) with (S (length (t' :: Ts'))).
      rewrite (take_S_r _ _ _ Hr), join_snoc.
      * rewrite app_assoc. apply emits_seq; [apply emits_seq|].
        -- apply IH. simpl in *; lia.
        -- eapply emits_eq; [apply emits_insert_decorator|by rewrite Hw].
        -- by apply (insert_get_emits xs rs).
      * destruct rs; [done|]. done.
Qed.

Lemma ToStream_tuple_emits Ts w xs rs :
  delimiters (std_tuple Ts) W = Some w -> rendered W ins xs rs ->
  length Ts = length xs ->
  emits (ToStream_tuple ins (std_tuple Ts) xs) W
    (Some (prefix w ++ join (separator w) rs ++ suffix w)).
Proof.
  intros Hw Hxs Hlen. unfold ToStream_tuple. simpl.
  pose proof (Forall2_length _ _ _ Hxs) as Hlen'.
  rewrite app_assoc. apply emits_seq; [apply emits_seq|].
  - eapply emits_eq; [apply emits_insert_decorator|by rewrite Hw].
  - rewrite <- (take_ge rs (length Ts)) by lia.
    eapply tuple_handler_emits; eauto. lia.
  - eapply emits_eq; [apply emits_insert_decorator|by rewrite Hw].
Qed.

Lemma for_each_emits (g : A -> action) xs ts :
  rendered W g xs ts -> emits (for_each xs g) W (Some (concat ts)).
Proof.
  induction 1 as [|x t xs ts Hx _ IH]; simpl; [apply emits_nothing|].
  by apply emits_seq.
Qed.

Variable F : Formatter A.
Variables pre sep suf : text.
Hypothesis F_prefix : emits (print_prefix F) W (Some pre).
Hypothesis F_delimiter : emits (print_delimiter F) W (Some sep).
Hypothesis F_suffix : emits (print_suffix F) W (Some suf).

Lemma ToStream_pair_emits first second r1 r2 :
  emits (print_element F first) W (Some r1) ->
  emits (print_element F second) W (Some r2) ->
  emits (ToStream_pair F first second) W (Some (pre ++ join sep [r1; r2] ++ suf)).
Proof using F_prefix F_delimiter F_suffix.
  intros H1 H2. unfold ToStream_pair. simpl.
  eapply emits_eq; [repeat apply emits_seq; eauto|].
  by rewrite <- !app_assoc.
Qed.

Lemma ToStream_container_emits T xs rs :
  is_not_a_tuple T = true ->
  instantiates F T W = true ->
  is_empty T xs = (if xs is [] then true else false) ->
  rendered W (print_element F) xs rs ->
  emits (ToStream_container F T xs) W (Some (pre ++ join sep rs ++ suf)).
Proof using F_prefix F_delimiter F_suffix.
  intros HT Hinst Hempty Hxs. unfold ToStream_container.
  apply emits_when_true; [by rewrite HT, Hinst|]. rewrite Hempty.
  destruct Hxs as [|x r xs rs Hx Hxs].
  - by apply emits_seq.
  - rewrite join_cons.
    eapply emits_eq; [repeat apply emits_seq; eauto|].
    + apply (for_each_emits _ xs (map (fun t => sep ++ t) rs)).
      unfold rendered. apply Forall2_fmap_r.
      eapply Forall2_impl; [exact Hxs|].
      intros y t Hy. simpl. by apply emits_seq.
    + by rewrite <- !app_assoc.
Qed.

End closed_forms.

Lemma emits_decorator_member T W w (member : wrapper -> text) :
  delimiters T W = Some w -> emits (insert_decorator T member) W (Some (member w)).
Proof. intros Hw. eapply emits_eq; [apply emits_insert_decorator|by rewrite Hw]. Qed.

(** With the default formatter. *)
Lemma default_ToStream_container_emits {A} (ins : A -> action) W T w xs rs :
  delimiters T W = Some w ->
  is_not_a_tuple T = true ->
  instantiates (default_formatter ins T) T W = true ->
  is_empty T xs = (if xs is [] then true else false) ->
  rendered W ins xs rs ->
  emits (ToStream_container (default_formatter ins T) T xs) W
    (Some (prefix w ++ join (separator w) rs ++ suffix w)).
Proof.
  intros Hw HT Hinst Hempty Hxs.
  apply (ToStream_container_emits W (default_formatter ins T)
           (prefix w) (separator w) (suffix w)); try done;
    by apply emits_decorator_member.
Qed.

Lemma default_ToStream_pair_emits {A} (ins : A -> action) W T w first second r1 r2 :
  delimiters T W = Some w ->
  emits (ins first) W (Some r1) ->
  emits (ins second) W (Some r2) ->
  emits (ToStream_pair (default_formatter ins T) first second) W
    (Some (prefix w ++ join (separator w) [r1; r2] ++ suffix w)).
Proof.
  intros Hw H1 H2.
  apply (ToStream_pair_emits W (default_formatter ins T)
           (prefix w) (separator w) (suffix w)); try done;
    by apply emits_decorator_member.
Qed.

(** The renderings of values. *)
Lemma rendered_render W xs rs :
  mapM (render W) xs = Some rs -> rendered W insert xs rs.
Proof.
  intros H. apply mapM_Some_1 in H. unfold rendered.
  eapply Forall2_impl; [exact H|].
  intros x r Hr. simpl in Hr. rewrite <- Hr. apply insert_render.
Qed.

Lemma is_empty_well_shaped T (elements : list value) :
  well_shaped (v_range T elements) = true ->
  is_empty T elements = (if elements is [] then true else false).
Proof.
  destruct T; simpl; try done.
  intros [[H%Nat.eqb_eq Hsize]%andb_prop _]%andb_prop. subst.
  by destruct elements.
Qed.

(** For an array or a class that is printable, the insertion is well-formed
    when the type has delimiters and the body of [ToStream] can be
    instantiated with the default formatter. *)
Lemma insertable_range {A} (ins : A -> action) T W elements :
  is_printable_as_container_v T = true ->
  well_shaped (v_range T elements) = true ->
  insertable W T
  = has_delimiters T W && instantiates (default_formatter ins T) T W.
Proof.
  intros Hp Hshape. unfold instantiates. cbn [print_element_accepts default_formatter].
  destruct T as [| |c|t|E n|c|a b|l|E|E|name args m]; try discriminate Hp;
    try discriminate Hshape.
  - cbn [well_shaped] in Hshape.
    apply andb_prop in Hshape as [[_ Hn]%andb_prop _].
    cbn [insertable iterable element_type_of].
    unfold is_printable_as_container_v in Hp. rewrite Hp, Hn. done.
  - done.
  - done.
  - unfold is_printable_as_container_v in Hp.
    cbn [insertable]. rewrite Hp. cbn [andb].
    assert (iterable (t_class name args m) = true) as ->.
    { simpl in *. unfold detected in Hp. simpl in Hp.
      destruct m as [[] [] [] [] []]; done. }
    destruct args as [|E [|V [|? ?]]]; cbn [element_type_of insertable andb];
      try by rewrite andb_false_r.
    + done.
    + by rewrite !andb_assoc.
Qed.

(** ** The stream-insertion operator *)

Lemma emits_on_stream a stream t :
  emits a (char_type stream) (Some t) -> a stream = Some (write t stream).
Proof. destruct stream as [W buf]. simpl. intros H. by rewrite (H buf). Qed.

(** What the operator prints for any printable container: prefix, the
    renderings of the elements joined by the separator, suffix. *)
Lemma printable_container_prints v stream w rs :
  is_printable_as_container_v (type_of v) = true ->
  well_shaped v = true ->
  insertable (char_type stream) (type_of v) = true ->
  delimiters (type_of v) (char_type stream) = Some w ->
  mapM (render (char_type stream)) (elements_of v) = Some rs ->
  operator_lshift v stream
    = Some (write (prefix w ++ join (separator w) rs ++ suffix w) stream).
Proof.
  intros Hp Hshape Hi Hw Hrs. unfold operator_lshift. rewrite Hp.
  apply emits_on_stream. apply rendered_render in Hrs.
  destruct v as [| | | |first second|elements|T elements]; try discriminate Hp.
  - inversion Hrs as [|? r1 ? rs1 H1 Hrs1]; subst.
    inversion Hrs1 as [|? r2 ? rs2 H2 Hrs2]; subst.
    inversion Hrs2; subst.
    by apply default_ToStream_pair_emits.
  - apply (ToStream_tuple_emits insert _ (map type_of elements)); try done.
    by rewrite length_map.
  - cbn [type_of] in Hp, Hw, Hi. unfold ToStream.
    assert (is_a_pair T = false) as -> by (by destruct T).
    rewrite (insertable_range insert T _ elements Hp Hshape) in Hi.
    apply andb_prop in Hi as [_ Hinst].
    apply default_ToStream_container_emits; try done.
    + by destruct T.
    + by apply is_empty_well_shaped.
Qed.

(** On a stream whose character type has no delimiters nothing is printed:
    the default formatter cannot be instantiated. *)
Lemma no_delimiters_no_print v stream :
  delimiters (type_of v) (char_type stream) = None ->
  operator_lshift v stream = None.
Proof.
  intros Hw. unfold operator_lshift.
  destruct (is_printable_as_container_v (type_of v)) eqn:Hp; [|done].
  destruct v as [| | | |first second|elements|T elements]; try discriminate Hp.
  - unfold ToStream, ToStream_pair, and_then.
    cbn [print_prefix default_formatter default].
    unfold insert_decorator, decorators. by rewrite Hw.
  - unfold ToStream, ToStream_tuple, and_then.
    cbn [print_prefix default_formatter is_a_tuple type_of].
    unfold insert_decorator, decorators. cbn [type_of] in Hw. by rewrite Hw.
  - unfold ToStream, ToStream_container, when, and_then. cbn [type_of] in Hw.
    destruct (is_a_pair T); [done|].
    destruct (is_not_a_tuple T && _); [|done].
    cbn [print_prefix default_formatter default].
    unfold insert_decorator, decorators. by rewrite Hw.
Qed.

(** A character array streamed directly is a C string for the standard
    library, and no container for the header. *)
Lemma character_array_is_printed_as_a_string :
  insert hello cout = Some (write (lit "Hello") cout)
  /\ operator_lshift hello cout = None.
Proof. split; reflexivity. Qed.

(** The insertion of an empty container is instantiated for its element
    type all the same: where the stream has no inserter for that type, the
    call is ill-formed. *)
Lemma empty_container_is_instantiated_for_its_element_type :
  operator_lshift (v_range (std_vector (std_stack t_int)) []) cout = None
  /\ operator_lshift (v_range (std_vector (std_basic_string char)) []) wcout = None
  /\ operator_lshift (v_range (std_vector (std_basic_string char)) []) cout
     = Some (write (lit "[]") cout).
Proof. repeat split. Qed.

(** C1.  A printable container without elements, whose insertion is
    well-formed on the stream (the header has delimiters for the character
    type of the stream, the stream an inserter for the element type), prints
    the prefix of its type immediately followed by the suffix: no separator,
    no element, the same for every such element type. *)
Theorem empty_container_prints_prefix_then_suffix
    (container : value) (stream : ostream) (w : wrapper) :
  is_printable_as_container_v (type_of container) = true ->
  well_shaped container = true ->
  insertable (char_type stream) (type_of container) = true ->
  size container = 0 ->
  delimiters (type_of container) (char_type stream) = Some w ->
  operator_lshift container stream = Some (write (prefix w ++ suffix w) stream).
Proof.
  intros Hp Hshape Hi Hsize Hw. unfold size in Hsize.
  apply nil_length_inv in Hsize.
  rewrite (printable_container_prints container stream w [] Hp Hshape Hi Hw).
  - done.
  - by rewrite Hsize.
Qed.

Lemma empty_container_prints_prefix_then_suffix_witness :
  is_printable_as_container_v (type_of (v_range (std_set t_double) [])) = true
  /\ well_shaped (v_range (std_set t_double) []) = true
  /\ insertable (char_type wcout) (type_of (v_range (std_set t_double) [])) = true
  /\ size (v_range (std_set t_double) []) = 0
  /\ delimiters (std_set t_double) (char_type wcout)
     = Some (Wrapper wchar_t (lit "{") (lit ", ") (lit "}"))
  /\ operator_lshift (v_range (std_set t_double) []) wcout
     = Some (write (lit "{}") wcout).
Proof.
  split; [reflexivity|]. split; [reflexivity|]. split; [reflexivity|].
  split; [reflexivity|]. split; [reflexivity|].
  exact (empty_container_prints_prefix_then_suffix
           (v_range (std_set t_double) []) wcout
           (Wrapper wchar_t (lit "{") (lit ", ") (lit "}"))
           eq_refl eq_refl eq_refl eq_refl eq_refl).
Defined.

(** ** Tuples *)

(** C2.  A tuple prints the tuple prefix, the renderings of its elements in
    index order with the separator between successive ones (one less than
    there are elements, none trailing), and the suffix; without elements
    that is [<>], with one element [<x>]. *)
Theorem tuple_prints_elements_in_index_order
    (elements : list value) (stream : ostream) (rs : list text) :
  char_type stream = char \/ char_type stream = wchar_t ->
  mapM (render (char_type stream)) elements = Some rs ->
  operator_lshift (v_tuple elements) stream
    = Some (write (lit "<" ++ join (lit ", ") rs ++ lit ">") stream)
  /\ length (join (lit ", ") rs)
     = length (concat rs) + (length elements - 1) * length (lit ", ")
  /\ (elements = [] ->
      operator_lshift (v_tuple elements) stream = Some (write (lit "<>") stream))
  /\ (forall x, elements = [x] ->
      exists r, render (char_type stream) x = Some r
        /\ operator_lshift (v_tuple elements) stream
           = Some (write (lit "<" ++ r ++ lit ">") stream)).
Proof.
  intros HW Hrs.
  assert (operator_lshift (v_tuple elements) stream
          = Some (write (lit "<" ++ join (lit ", ") rs ++ lit ">") stream)) as Hmain.
  { unfold operator_lshift. simpl. apply emits_on_stream.
    apply (ToStream_tuple_emits insert (char_type stream) (map type_of elements)
             (Wrapper (char_type stream) (lit "<") (lit ", ") (lit ">"))).
    - by destruct HW as [-> | ->].
    - by apply rendered_render.
    - by rewrite length_map. }
  split; [exact Hmain|]. split; [|split].
  - rewrite join_length. by rewrite (length_mapM _ _ _ Hrs).
  - intros ->. simpl in Hrs. injection Hrs as <-. exact Hmain.
  - intros x ->. simpl in Hrs.
    destruct (render (char_type stream) x) as [r|] eqn:Hr; [|discriminate Hrs].
    simpl in Hrs. injection Hrs as <-. exists r. split; [done|exact Hmain].
Qed.

Lemma tuple_prints_elements_in_index_order_witness :
  (char_type wcout = char \/ char_type wcout = wchar_t)
  /\ mapM (render (char_type wcout)) [v_int 1; v_int 2; v_int 3; v_int 4]
     = Some [lit "1"; lit "2"; lit "3"; lit "4"]
  /\ operator_lshift sample_tuple wcout = Some (write (lit "<1, 2, 3, 4>") wcout).
Proof.
  split; [by right|]. split; [reflexivity|].
  exact (proj1 (tuple_prints_elements_in_index_order
                  [v_int 1; v_int 2; v_int 3; v_int 4] wcout
                  [lit "1"; lit "2"; lit "3"; lit "4"]
                  (or_intror eq_refl) eq_refl)).
Defined.

(** ** The guard of the stream-insertion operator *)






(** ** The reference the operator returns *)

(** C10.  Where the operator prints a container to the stream an address
    refers to, it returns that very address, the stream there holds what was
    printed and no other stream has changed; so a second insertion on the
    returned reference continues on the same stream. *)
Theorem operator_returns_its_stream
    (m : memory) (stream : address) (s s' : ostream) (container : value) :
  m !! stream = Some s ->
  operator_lshift container s = Some s' ->
  operator_lshift_ref stream container m = Some (stream, <[stream := s']> m)
  /\ (forall other, other <> stream -> (<[stream := s']> m) !! other = m !! other)
  /\ (forall next s'', operator_lshift next s' = Some s'' ->
      match operator_lshift_ref stream container m with
      | Some (r, m') => operator_lshift_ref r next m'
      | None => None
      end = Some (stream, <[stream := s'']> m)).
Proof.
  intros Hs Hprint.
  assert (operator_lshift_ref stream container m = Some (stream, <[stream := s']> m))
    as Hfirst.
  { unfold operator_lshift_ref, on_stream. by rewrite Hs, Hprint. }
  split; [exact Hfirst|]. split.
  - intros other Hother. by rewrite lookup_insert_ne.
  - intros next s'' Hnext. rewrite Hfirst.
    unfold operator_lshift_ref, on_stream.
    rewrite lookup_insert_eq, Hnext. by rewrite insert_insert_eq.
Qed.

Lemma operator_returns_its_stream_witness :
  ({[ 1%positive := cout ]} : memory) !! 1%positive = Some cout
  /\ operator_lshift sample_map cout
     = Some (write (lit "[(1, Template), (2, Meta), (3, Programming)]") cout)
  /\ operator_lshift_ref 1%positive sample_map {[ 1%positive := cout ]}
     = Some (1%positive,
             <[ 1%positive :=
                  write (lit "[(1, Template), (2, Meta), (3, Programming)]") cout ]>
               {[ 1%positive := cout ]}).
Proof.
  split; [reflexivity|]. split; [reflexivity|].
  exact (proj1 (operator_returns_its_stream
                  {[ 1%positive := cout ]} 1%positive cout
                  (write (lit "[(1, Template), (2, Meta), (3, Programming)]") cout)
                  sample_map eq_refl eq_refl)).
Defined.

(** ** Character and string elements *)

Lemma standard_delimiters T W :
  standard W = true -> exists w, delimiters T W = Some w.
Proof. destruct W; try discriminate; intros _; simpl; by eexists. Qed.

Lemma has_delimiters_Some T W :
  has_delimiters T W = true -> exists w, delimiters T W = Some w.
Proof. unfold has_delimiters. destruct (delimiters T W); [by eexists|done]. Qed.

Lemma framed_delimiters W T w parts :
  delimiters T W = Some w ->
  framed W T parts = prefix w ++ join (separator w) parts ++ suffix w.
Proof. unfold framed. by intros ->. Qed.

Lemma rendered_map W (g : value -> text) xs :
  Forall (fun x => emits (insert x) W (Some (g x))) xs ->
  rendered W insert xs (map g xs).
Proof. unfold rendered. induction 1; simpl; by constructor. Qed.

(** A textual value prints its plain text. *)
Lemma textual_emits W v :
  standard W = true -> textual W v = true ->
  emits (insert v) W (Some (plain_text W v)).
Proof.
  intros HW.
  induction v as [z|c code|c chars|c chars|a b IHa IHb|l IH|T l IH]
    using value_nested_ind; intros Hv.
  - eapply emits_eq; [apply emits_insert_int|by rewrite HW].
  - apply bool_decide_eq_true in Hv as ->.
    eapply emits_eq; [apply emits_insert_character|by rewrite decide_True].
  - apply bool_decide_eq_true in Hv as ->. apply emits_insert_same.
  - apply bool_decide_eq_true in Hv as ->.
    eapply emits_eq; [apply emits_insert_basic_string|by rewrite decide_True].
  - apply andb_prop in Hv as [Ha Hb].
    destruct (standard_delimiters (type_of (v_pair a b)) W HW) as [w Hw].
    rewrite insert_pair. cbn [plain_text]. rewrite (framed_delimiters _ _ w) by done.
    apply default_ToStream_pair_emits; auto.
  - destruct (standard_delimiters (type_of (v_tuple l)) W HW) as [w Hw].
    rewrite insert_tuple. cbn [plain_text]. rewrite (framed_delimiters _ _ w) by done.
    apply (ToStream_tuple_emits insert W (map type_of l)); [done| |by rewrite length_map].
    apply rendered_map. cbn [textual] in Hv. rewrite forallb_forall in Hv.
    apply Forall_forall. intros x Hx. rewrite Forall_forall in IH.
    apply (IH x Hx). apply Hv. by apply list_elem_of_In.
  - cbn [textual] in Hv.
    apply andb_prop in Hv as [[[Hp Hshape]%andb_prop Hi]%andb_prop Hl].
    rewrite (insert_range T l Hp). unfold ToStream.
    assert (is_a_pair T = false) as -> by (by destruct T).
    rewrite (insertable_range insert T W l Hp Hshape) in Hi.
    apply andb_prop in Hi as [Hd Hinst].
    destruct (has_delimiters_Some T W Hd) as [w Hw].
    cbn [plain_text]. rewrite (framed_delimiters _ _ w) by done.
    apply default_ToStream_container_emits; try done.
    + by destruct T.
    + by apply is_empty_well_shaped.
    + apply rendered_map. rewrite forallb_forall in Hl.
      apply Forall_forall. intros x Hx. rewrite Forall_forall in IH.
      apply (IH x Hx). apply Hl. by apply list_elem_of_In.
Qed.

(** C3, as the header has it.  A container, whether pair, tuple, array or
    class container and however nested, whose innermost elements are
    integers, characters and strings of the character type of the stream,
    prints its plain text: the delimiters of the containers, the integers in
    decimal, and every character and string exactly as it is, with no quote
    mark added and no character replaced. *)
Theorem string_elements_are_printed_as_they_are (v : value) (stream : ostream) :
  standard (char_type stream) = true ->
  is_printable_as_container_v (type_of v) = true ->
  textual (char_type stream) v = true ->
  operator_lshift v stream = Some (write (plain_text (char_type stream) v) stream).
Proof.
  intros HW Hp Hv. rewrite <- (insert_printable v Hp). apply emits_on_stream.
  by apply textual_emits.
Qed.

Lemma string_elements_are_printed_as_they_are_witness :
  standard (char_type cout) = true
  /\ is_printable_as_container_v (type_of sample_map) = true
  /\ textual (char_type cout) sample_map = true
  /\ operator_lshift sample_map cout
     = Some (write (lit "[(1, Template), (2, Meta), (3, Programming)]") cout).
Proof.
  split; [reflexivity|]. split; [reflexivity|]. split; [reflexivity|].
  exact (string_elements_are_printed_as_they_are sample_map cout
           eq_refl eq_refl eq_refl).
Defined.

(** C3, as stated, fails: the strings of the map are printed without quote
    marks. *)
Lemma sample_map_is_printed_without_quote_marks :
  operator_lshift sample_map cout
    = Some (write (lit "[(1, Template), (2, Meta), (3, Programming)]") cout)
  /\ operator_lshift sample_map cout <> Some (write sample_map_quoted cout).
Proof. split; [reflexivity|]. vm_compute. discriminate. Qed.

(** C4, as the header has it.  [print_element] of the default formatter
    hands a character or string element to the stream and escapes nothing:
    an element of the character type of the stream is copied through
    character by character, whatever the characters, and an ASCII narrow
    character or C string on a wide stream comes out as the same
    characters. *)
Theorem print_element_copies_every_character
    (T : CType) (c : CharacterType) (stream : ostream) :
  c = char_type stream \/ (c = char /\ char_type stream = wchar_t) ->
  (forall code,
     c = char_type stream \/ is_ascii [code] = true ->
     print_element (default_formatter insert T) (v_char c code) stream
     = Some (write [code] stream))
  /\ (forall chars,
     c = char_type stream \/ is_ascii chars = true ->
     print_element (default_formatter insert T) (v_c_string c chars) stream
     = Some (write chars stream))
  /\ (forall chars, c = char_type stream ->
     print_element (default_formatter insert T) (v_string c chars) stream
     = Some (write chars stream)).
Proof.
  intros Hc. cbn [print_element default_formatter insert native_insert].
  unfold insert_character, insert_c_string, insert_basic_string.
  destruct stream as [W buf]. cbn [char_type] in *. repeat split.
  - intros code [-> | Hcode]; [by rewrite decide_True|].
    destruct Hc as [-> | [-> ->]]; [by rewrite decide_True|].
    cbn -[is_ascii]. by rewrite Hcode.
  - intros chars [-> | Hchars]; [by rewrite decide_True|].
    destruct Hc as [-> | [-> ->]]; [by rewrite decide_True|].
    cbn -[is_ascii]. by rewrite Hchars.
  - intros chars ->. by rewrite decide_True.
Qed.

Lemma print_element_copies_every_character_witness :
  (char = char_type wcout \/ (char = char /\ char_type wcout = wchar_t))
  /\ is_ascii (lit "test") = true
  /\ print_element (default_formatter insert (std_vector (t_pointer (t_char char))))
       (v_c_string char (lit "test")) wcout
     = Some (write (lit "test") wcout).
Proof.
  split; [right; by split|]. split; [reflexivity|].
  exact (proj1 (proj2 (print_element_copies_every_character
                         (std_vector (t_pointer (t_char char))) char wcout
                         (or_intror (conj eq_refl eq_refl))))
           (lit "test") (or_intror eq_refl)).
Defined.

(** C4, as stated, fails: a narrow string printed as an element on a wide
    stream comes out as its four characters, not as four hexadecimal
    escapes; and on a narrow stream a tab comes out as a tab. *)
Lemma narrow_string_on_wide_stream_is_not_escaped :
  print_element (default_formatter insert (std_vector (t_pointer (t_char char))))
    (v_c_string char (lit "test")) wcout
  = Some (write (lit "test") wcout)
  /\ print_element (default_formatter insert (std_vector (t_pointer (t_char char))))
       (v_c_string char (lit "test")) wcout
     <> Some (write (lit "\x00000074\x00000065\x00000073\x00000074") wcout)
  /\ print_element (default_formatter insert (std_vector (std_basic_string char)))
       (v_string char [116; 101; 115; 9]%N) cout
     = Some (write [116; 101; 115; 9]%N cout).
Proof. split; [reflexivity|]. split; [|reflexivity]. vm_compute. discriminate. Qed.

(** ** The delimiter table *)

(** C5, as the header has it.  For every container type and for [char] and
    [wchar_t], the lookup gives a [wrapper] of that character type with
    three members, prefix, separator and suffix, none of them empty; the
    separator is the one token [", "], comma and space together; and the
    lookup is a function of the two types alone. *)
Theorem delimiters_are_three_nonempty_tokens (T : CType) (W : CharacterType) :
  W = char \/ W = wchar_t ->
  exists w,
    delimiters T W = Some w
    /\ type w = W
    /\ length (wrapper_members w) = 3
    /\ Forall (fun token => token <> []) (wrapper_members w)
    /\ separator w = lit ", "
    /\ (forall w', delimiters T W = Some w' -> w' = w).
Proof.
  intros [-> | ->]; destruct T; simpl; eexists;
    (split; [reflexivity|]); repeat split;
    try (repeat constructor; discriminate);
    intros w' Hw'; by simplify_eq.
Qed.

Lemma delimiters_are_three_nonempty_tokens_witness :
  (wchar_t = char \/ wchar_t = wchar_t)
  /\ exists w, delimiters (std_pair t_int t_double) wchar_t = Some w
       /\ type w = wchar_t
       /\ length (wrapper_members w) = 3.
Proof.
  split; [by right|].
  destruct (delimiters_are_three_nonempty_tokens (std_pair t_int t_double) wchar_t
              (or_intror eq_refl)) as (w & Hw & Htype & Hlen & _).
  exists w. split; [exact Hw|]. split; [exact Htype|exact Hlen].
Defined.

(** C5, as stated, fails: what the lookup returns for a vector on a narrow
    stream has no four tokens, and none of its tokens is the whitespace. *)
Lemma delimiters_have_no_whitespace_token :
  delimiters (std_vector t_int) char
    = Some (Wrapper char (lit "[") (lit ", ") (lit "]"))
  /\ ~ (exists p s ws q,
          wrapper_members (Wrapper char (lit "[") (lit ", ") (lit "]"))
          = [p; s; ws; q])
  /\ ~ In (lit " ") (wrapper_members (Wrapper char (lit "[") (lit ", ") (lit "]"))).
Proof.
  split; [reflexivity|]. split.
  - intros (p & s & ws & q & H). discriminate H.
  - vm_compute. intros [H|[H|[H|[]]]]; discriminate H.
Qed.

(** C6, as the header has it.  [std::set] and [std::multiset] are framed
    with braces for [char] and for [wchar_t]; every other class type, the
    maps and the unordered sets among them, has the default brackets. *)
Theorem only_set_and_multiset_are_framed_with_braces (W : CharacterType) :
  W = char \/ W = wchar_t ->
  (forall T, delimiters (std_set T) W = Some (Wrapper W (lit "{") (lit ", ") (lit "}")))
  /\ (forall T,
        delimiters (std_multiset T) W = Some (Wrapper W (lit "{") (lit ", ") (lit "}")))
  /\ (forall name args m,
        delimiters (t_class name args m) W
        = Some (Wrapper W (lit "[") (lit ", ") (lit "]")))
  /\ (forall Key Mapped,
        delimiters (std_map Key Mapped) W
        = Some (Wrapper W (lit "[") (lit ", ") (lit "]"))).
Proof. intros [-> | ->]; repeat split. Qed.

Lemma only_set_and_multiset_are_framed_with_braces_witness :
  (char = char \/ char = wchar_t)
  /\ delimiters (std_multiset t_int) char
     = Some (Wrapper char (lit "{") (lit ", ") (lit "}")).
Proof.
  split; [by left|].
  exact (proj1 (proj2 (only_set_and_multiset_are_framed_with_braces char
                         (or_introl eq_refl))) t_int).
Defined.

(** C6, as stated, fails: a map is framed with the default brackets. *)
Lemma map_is_framed_with_brackets :
  exists w,
    delimiters (std_map t_int (std_basic_string char)) char = Some w
    /\ prefix w = lit "["
    /\ suffix w = lit "]"
    /\ prefix w <> lit "{"
    /\ suffix w <> lit "}".
Proof. eexists. split; [reflexivity|]. repeat split; discriminate. Qed.

(** ** The trait on the standard types *)

(** Containers with iteration are printable; strings, container adaptors
    without iteration, scalars and pointers are not. *)
Lemma standard_types_classified :
  Forall (fun T => is_printable_as_container T = true)
    [ std_vector t_int; std_set t_int; std_multiset t_int;
      std_unordered_set t_int; std_map t_int t_double;
      std_multimap t_int t_double; std_unordered_map t_int t_double;
      std_pair t_int t_double; std_tuple [t_int; t_double; t_double];
      std_tuple []; t_array t_int 5 ]
  /\ Forall (fun T => is_printable_as_container T = false)
    [ std_basic_string char; std_basic_string wchar_t; std_stack t_int;
      t_array (t_char char) 5; t_int; t_char char; t_pointer (t_char char) ].
Proof. split; repeat constructor. Qed.

(** ** Arrays of characters *)

(** C7, as the header has it.  An array of [char] or of [wchar_t], of any
    size, is not printable as a container; an array of any other element
    type is, the arrays of [char16_t] and [char32_t] among them. *)
Theorem narrow_and_wide_character_arrays_are_not_containers (ArraySize : nat) :
  is_printable_as_container (t_array (t_char char) ArraySize) = false
  /\ is_printable_as_container (t_array (t_char wchar_t) ArraySize) = false
  /\ (forall ArrayType,
        ArrayType <> t_char char -> ArrayType <> t_char wchar_t ->
        is_printable_as_container (t_array ArrayType ArraySize) = true).
Proof.
  split; [done|]. split; [done|].
  intros ArrayType Hchar Hwchar.
  destruct ArrayType as [| |[]| | | | | | | |]; done.
Qed.

Lemma narrow_and_wide_character_arrays_are_not_containers_witness :
  t_int <> t_char char /\ t_int <> t_char wchar_t
  /\ is_printable_as_container (t_array t_int 5) = true.
Proof.
  split; [discriminate|]. split; [discriminate|].
  exact (proj2 (proj2 (narrow_and_wide_character_arrays_are_not_containers 5))
           t_int ltac:(discriminate) ltac:(discriminate)).
Defined.

(** C7, as stated, fails: arrays of the 16-bit and 32-bit character types
    are printable as containers. *)
Lemma unicode_character_arrays_are_containers :
  is_printable_as_container (t_array (t_char char16_t) 5) = true
  /\ is_printable_as_container (t_array (t_char char32_t) 5) = true.
Proof. split; reflexivity. Qed.

(** ** The formatter a caller names *)

(** Containers and pairs print with the tokens of the caller's formatter. *)
Lemma caller_formatter_is_used W pre sep suf :
  (forall T elements rs,
     is_printable_as_container_v T = true ->
     well_shaped (v_range T elements) = true ->
     instantiates (token_formatter W pre sep suf) T W = true ->
     mapM (render W) elements = Some rs ->
     emits (ToStream (Some (token_formatter W pre sep suf)) (v_range T elements)) W
       (Some (pre ++ join sep rs ++ suf)))
  /\ (forall first second r1 r2,
     render W first = Some r1 -> render W second = Some r2 ->
     emits (ToStream (Some (token_formatter W pre sep suf)) (v_pair first second)) W
       (Some (pre ++ join sep [r1; r2] ++ suf))).
Proof.
  assert (forall t, emits (insert_c_string W t) W (Some t)) as Htoken.
  { intros t. eapply emits_eq; [apply emits_insert_c_string|by rewrite decide_True]. }
  split.
  - intros T elements rs Hp Hshape Hinst Hrs. unfold ToStream.
    assert (is_a_pair T = false) as -> by (by destruct T).
    apply (ToStream_container_emits W (token_formatter W pre sep suf) pre sep suf);
      try apply Htoken.
    + by destruct T.
    + done.
    + by apply is_empty_well_shaped.
    + by apply rendered_render.
  - intros first second r1 r2 H1 H2. unfold ToStream.
    apply (ToStream_pair_emits W (token_formatter W pre sep suf) pre sep suf);
      try apply Htoken; simpl.
    + rewrite <- H1. apply insert_render.
    + rewrite <- H2. apply insert_render.
Qed.

(** C9 at the input where it fails.  The overloads for containers and pairs
    print with the formatter the caller names; the overload for tuples has
    no formatter parameter, so a tuple printed with the caller's formatter
    named comes out with the default tuple delimiters. *)
Theorem tuple_overload_does_not_take_the_formatter :
  ToStream (Some dollar_formatter) sample_vector wcout
    = Some (write (lit "$$ 1 | 2 | 3 | 4 $$") wcout)
  /\ ToStream (Some dollar_formatter) (v_pair (v_int 1) (v_int 2)) wcout
     = Some (write (lit "$$ 1 | 2 $$") wcout)
  /\ ToStream (Some dollar_formatter) sample_tuple wcout
     = Some (write (lit "<1, 2, 3, 4>") wcout)
  /\ ToStream (Some dollar_formatter) sample_tuple wcout
     <> Some (write (lit "$$ 1 | 2 | 3 | 4 $$") wcout)
  /\ (forall F elements,
        ToStream (Some F) (v_tuple elements) = ToStream None (v_tuple elements)).
Proof.
  split; [reflexivity|]. split; [reflexivity|]. split; [reflexivity|].
  split; [vm_compute; discriminate|]. reflexivity.
Qed.

(** * Further properties of the header *)

(** ** Printing, with the calls that have no result *)

Lemma emits_functional a W r r' : emits a W r -> emits a W r' -> r = r'.
Proof.
  intros H H'. specialize (H []). rewrite (H' []) in H.
  destruct r as [t|], r' as [t'|]; simpl in H; try done. by simplify_eq.
Qed.

Lemma emits_fail_and_then a b W : emits a W None -> emits (a >> b) W None.
Proof. intros Ha buf. unfold and_then. by rewrite Ha. Qed.

Lemma mapM_snoc {A B} (f : A -> option B) l x :
  mapM f (l ++ [x]) = ks ← mapM f l; y ← f x; Some (ks ++ [y]).
Proof.
  induction l as [|a l IH]; simpl.
  - by destruct (f x).
  - destruct (f a); simpl; [|done]. rewrite IH.
    destruct (mapM f l); simpl; [|done]. by destruct (f x).
Qed.

Lemma mapM_prepend {A} (r : A -> option text) (sep : text) xs :
  mapM (fun y => t ← r y; Some (sep ++ t)) xs
  = map (fun t => sep ++ t) <$> mapM r xs.
Proof.
  induction xs as [|x xs IH]; simpl; [done|].
  destruct (r x); simpl; [|done]. rewrite IH.
  unfold text in *. destruct (mapM r xs); reflexivity.
Qed.

Section partial_forms.

Context {A : Type} (ins : A -> action) (W : CharacterType).
Variable r : A -> option text.

Lemma for_each_emits_opt (g : A -> action) (r' : A -> option text) xs :
  Forall (fun x => emits (g x) W (r' x)) xs ->
  emits (for_each xs g) W (@concat N <$> mapM r' xs).
Proof.
  induction 1 as [|x xs Hx _ IH]; simpl; [apply emits_nothing|].
  eapply emits_eq; [by apply emits_and_then|].
  unfold text in *. simpl.
  destruct (r' x); simpl; [|done]. destruct (mapM r' xs); reflexivity.
Qed.

Lemma insert_get_emits_opt xs I x :
  Forall (fun x => emits (ins x) W (r x)) xs ->
  xs !! I = Some x -> emits (insert_get ins I xs) W (r x).
Proof.
  intros Hxs Hx. unfold insert_get, get. rewrite Hx.
  by eapply Forall_lookup_1 in Hxs.
Qed.

Lemma tuple_handler_emits_opt T w xs Ts :
  delimiters T W = Some w ->
  Forall (fun x => emits (ins x) W (r x)) xs ->
  length Ts <= length xs ->
  emits (tuple_handler ins T Ts xs) W
    (join (separator w) <$> mapM r (take (length Ts) xs)).
Proof.
  intros Hw Hxs. induction Ts as [|t Ts IH]; intros Hlen.
  - apply emits_nothing.
  - destruct Ts as [|t' Ts'].
    + destruct xs as [|x xs']; [simpl in Hlen; lia|].
      eapply emits_eq; [by apply (insert_get_emits_opt (x :: xs') 0 x)|].
      simpl. by destruct (r x).
    + rewrite tuple_handler_cons.
      destruct (lookup_lt_is_Some_2 xs (length (t' :: Ts'))) as [x Hx];
        [simpl in *; lia|].
      eapply emits_eq.
      { apply emits_and_then; [apply emits_and_then|].
        - apply IH. simpl in *; lia.
        - by apply (emits_decorator_member T W w separator).
        - by apply (insert_get_emits_opt xs _ x). }
      change (length (t :: t' :: Ts')) with (S (length (t' :: Ts'))).
      rewrite (take_S_r _ _ _ Hx), mapM_snoc.
      destruct (mapM r (take (length (t' :: Ts')) xs)) as [ks|] eqn:Hks;
        simpl; [|done].
      destruct (r x) as [y|]; simpl; [|done].
      rewrite join_snoc; [by rewrite <- !app_assoc|].
      apply length_mapM in Hks. rewrite length_take in Hks.
      destruct ks; [|done]. exfalso. cbn [length] in Hks, Hlen. lia.
Qed.

Lemma ToStream_tuple_emits_opt Ts xs :
  Forall (fun x => emits (ins x) W (r x)) xs ->
  length Ts = length xs ->
  emits (ToStream_tuple ins (std_tuple Ts) xs) W
    (w ← delimiters (std_tuple Ts) W; rs ← mapM r xs;
     Some (prefix w ++ join (separator w) rs ++ suffix w)).
Proof.
  intros Hxs Hlen. unfold ToStream_tuple. cbn [is_a_tuple DataTypes_of].
  destruct (delimiters (std_tuple Ts) W) as [w|] eqn:Hw; simpl.
  - eapply emits_eq.
    { apply emits_and_then; [apply emits_and_then|].
      + by apply (emits_decorator_member _ W w prefix).
      + apply (tuple_handler_emits_opt _ w); [done|done|lia].
      + by apply (emits_decorator_member _ W w suffix). }
    rewrite take_ge by lia. destruct (mapM r xs); simpl; [|done].
    by rewrite <- !app_assoc.
  - apply emits_fail_and_then, emits_fail_and_then.
    eapply emits_eq; [apply emits_insert_decorator|by rewrite Hw].
Qed.

Lemma ToStream_pair_emits_opt T first second :
  emits (ins first) W (r first) -> emits (ins second) W (r second) ->
  emits (ToStream_pair (default_formatter ins T) first second) W
    (w ← delimiters T W; rs ← mapM r [first; second];
     Some (prefix w ++ join (separator w) rs ++ suffix w)).
Proof.
  intros H1 H2. unfold ToStream_pair.
  destruct (delimiters T W) as [w|] eqn:Hw; simpl.
  - eapply emits_eq.
    { repeat apply emits_and_then.
      + by apply (emits_decorator_member _ W w prefix).
      + exact H1.
      + by apply (emits_decorator_member _ W w separator).
      + exact H2.
      + by apply (emits_decorator_member _ W w suffix). }
    destruct (r first); simpl; [|done]. destruct (r second); simpl; [|done].
    by rewrite <- !app_assoc.
  - do 4 apply emits_fail_and_then.
    eapply emits_eq; [apply emits_insert_decorator|by rewrite Hw].
Qed.

Lemma ToStream_container_emits_opt T xs :
  is_not_a_tuple T = true ->
  is_empty T xs = (if xs is [] then true else false) ->
  Forall (fun x => emits (ins x) W (r x)) xs ->
  emits (ToStream_container (default_formatter ins T) T xs) W
    (if instantiates (default_formatter ins T) T W
     then w ← delimiters T W; rs ← mapM r xs;
          Some (prefix w ++ join (separator w) rs ++ suffix w)
     else None).
Proof.
  intros HT Hempty Hxs. unfold ToStream_container.
  eapply emits_eq;
    [apply (emits_when _ _ _
              (w ← delimiters T W; rs ← mapM r xs;
               Some (prefix w ++ join (separator w) rs ++ suffix w)))
    |cbn beta; by rewrite HT].
  rewrite Hempty.
  destruct (delimiters T W) as [w|] eqn:Hw; simpl.
  - destruct Hxs as [|x xs Hx Hxs].
    + eapply emits_eq; [apply emits_seq; by eapply emits_decorator_member|done].
    + eapply emits_eq.
      { apply emits_and_then; [by apply (emits_decorator_member _ W w prefix)|].
        apply emits_and_then; [apply emits_and_then|].
        - exact Hx.
        - apply (for_each_emits_opt _ (fun y => t ← r y; Some (separator w ++ t))).
          eapply Forall_impl; [exact Hxs|]. intros y Hy. simpl.
          eapply emits_eq;
            [apply emits_and_then;
               [by apply (emits_decorator_member _ W w separator)|exact Hy]|done].
        - by apply (emits_decorator_member _ W w suffix). }
      rewrite mapM_prepend. cbn [mapM].
      destruct (r x) as [t|]; simpl; [|done].
      unfold text in *. destruct (mapM r xs) as [ts|]; [|done].
      cbn -[join concat]. by rewrite join_cons, <- !app_assoc.
  - apply emits_fail_and_then.
    eapply emits_eq; [apply emits_insert_decorator|by rewrite Hw].
Qed.

End partial_forms.

(** Where a container is printed, every element has been, and its text is
    composed from theirs. *)
Lemma printed_container_is_composed v W t :
  is_printable_as_container_v (type_of v) = true ->
  well_shaped v = true ->
  render W v = Some t ->
  exists w rs,
    delimiters (type_of v) W = Some w
    /\ mapM (render W) (elements_of v) = Some rs
    /\ t = prefix w ++ join (separator w) rs ++ suffix w.
Proof.
  intros Hp Hshape Ht.
  assert (forall o, emits (operator_lshift v) W o -> o = Some t) as Hfun.
  { intros o Ho. rewrite <- Ht. symmetry.
    apply (emits_functional (insert v) W); [apply insert_render|].
    by rewrite (insert_printable v Hp). }
  unfold operator_lshift in Hfun. rewrite Hp in Hfun.
  assert (forall T (xs : list value) o,
            (w ← delimiters T W; rs ← mapM (render W) xs;
             Some (prefix w ++ join (separator w) rs ++ suffix w)) = o ->
            o = Some t ->
            exists w rs,
              delimiters T W = Some w /\ mapM (render W) xs = Some rs
              /\ t = prefix w ++ join (separator w) rs ++ suffix w) as Hout.
  { intros T xs o <- Ho. destruct (delimiters T W) as [w|]; [|done].
    unfold text in *. cbn [mbind option_bind] in Ho.
    destruct (mapM _ _) as [rs|]; [|discriminate Ho].
    exists w, rs. simpl in Ho. by simplify_eq. }
  destruct v as [| | | |first second|elements|T elements]; try discriminate Hp.
  - apply (Hout (type_of (v_pair first second)) [first; second] _ eq_refl).
    apply Hfun.
    apply (ToStream_pair_emits_opt insert W (render W)); apply insert_render.
  - apply (Hout (type_of (v_tuple elements)) elements _ eq_refl).
    apply Hfun.
    apply (ToStream_tuple_emits_opt insert W (render W) (map type_of elements)).
    + apply Forall_forall. intros x _. apply insert_render.
    + by rewrite length_map.
  - cbn [type_of elements_of] in *. unfold ToStream in Hfun.
    assert (is_a_pair T = false) as Hpair by (by destruct T).
    rewrite Hpair in Hfun.
    assert (is_not_a_tuple T = true) as HT by (by destruct T).
    pose proof (Hfun _ (ToStream_container_emits_opt insert W (render W) T elements
                          HT (is_empty_well_shaped T elements Hshape)
                          (proj2 (Forall_forall _ _)
                             (fun x _ => insert_render x W)))) as Ho.
    destruct (instantiates (default_formatter insert T) T W); [|done].
    by apply (Hout T elements _ eq_refl).
Qed.

Lemma delimiters_narrow_wide T :
  exists p s q,
    delimiters T char = Some (Wrapper char p s q)
    /\ delimiters T wchar_t = Some (Wrapper wchar_t p s q).
Proof. destruct T; simpl; by do 3 eexists. Qed.

(** The plain text of a value is the same for the narrow and the wide
    character type. *)
Lemma framed_narrow_wide T parts : framed char T parts = framed wchar_t T parts.
Proof.
  unfold framed. destruct (delimiters_narrow_wide T) as (p & s & q & -> & ->). done.
Qed.

Lemma plain_text_narrow_wide v : plain_text char v = plain_text wchar_t v.
Proof.
  induction v as [z|c code|c chars|c chars|a b IHa IHb|l IH|T l IH]
    using value_nested_ind; try done.
  - cbn [plain_text]. by rewrite IHa, IHb, framed_narrow_wide.
  - cbn [plain_text]. rewrite framed_narrow_wide. f_equal.
    apply map_ext_Forall. exact IH.
  - cbn [plain_text]. rewrite framed_narrow_wide. f_equal.
    apply map_ext_Forall. exact IH.
Qed.

Lemma textual_render W v :
  standard W = true -> textual W v = true -> render W v = Some (plain_text W v).
Proof.
  intros HW Hv.
  apply (emits_functional (insert v) W); [apply insert_render|by apply textual_emits].
Qed.

(** X1.  Printing a container is composed from printing its elements.
    Where the insertion is well-formed on the stream and every element
    prints, the operator appends the prefix, the texts of the elements in
    order with the separator between successive ones, and the suffix; and
    whenever the operator prints, it has printed every element and what it
    has appended is composed in this way. *)
Theorem printing_is_composed_from_the_elements (v : value) (stream : ostream) :
  is_printable_as_container_v (type_of v) = true ->
  well_shaped v = true ->
  (forall w rs,
     insertable (char_type stream) (type_of v) = true ->
     delimiters (type_of v) (char_type stream) = Some w ->
     mapM (render (char_type stream)) (elements_of v) = Some rs ->
     operator_lshift v stream
     = Some (write (prefix w ++ join (separator w) rs ++ suffix w) stream))
  /\ (forall stream',
        operator_lshift v stream = Some stream' ->
        exists w rs,
          delimiters (type_of v) (char_type stream) = Some w
          /\ mapM (render (char_type stream)) (elements_of v) = Some rs
          /\ stream' = write (prefix w ++ join (separator w) rs ++ suffix w) stream).
Proof.
  intros Hp Hshape. split.
  - intros w rs Hi Hw Hrs. by apply printable_container_prints.
  - intros stream' H. destruct stream as [W buf]. cbn [char_type].
    rewrite <- (insert_printable v Hp), (insert_render v W buf) in H.
    destruct (render W v) as [t|] eqn:Ht; [|done].
    destruct (printed_container_is_composed v W t Hp Hshape Ht)
      as (w & rs & Hw & Hrs & ->).
    exists w, rs. simpl in H. by simplify_eq.
Qed.

Lemma printing_is_composed_from_the_elements_witness :
  is_printable_as_container_v
    (type_of (v_range (std_vector (std_pair t_int t_int))
                [v_pair (v_int 1) (v_int 2); v_pair (v_int 3) (v_int 4)])) = true
  /\ well_shaped (v_range (std_vector (std_pair t_int t_int))
                    [v_pair (v_int 1) (v_int 2); v_pair (v_int 3) (v_int 4)]) = true
  /\ operator_lshift
       (v_range (std_vector (std_pair t_int t_int))
          [v_pair (v_int 1) (v_int 2); v_pair (v_int 3) (v_int 4)]) cout
     = Some (write (lit "[(1, 2), (3, 4)]") cout).
Proof.
  split; [reflexivity|]. split; [reflexivity|].
  exact (proj1 (printing_is_composed_from_the_elements
                  (v_range (std_vector (std_pair t_int t_int))
                     [v_pair (v_int 1) (v_int 2); v_pair (v_int 3) (v_int 4)])
                  cout eq_refl eq_refl)
           (Wrapper char (lit "[") (lit ", ") (lit "]"))
           [lit "(1, 2)"; lit "(3, 4)"] eq_refl eq_refl eq_refl).
Defined.

(** X2.  The operator only appends: where it prints, the stream keeps its
    character type and everything it held, and what is added is the text of
    the container, the same whatever the stream held before. *)
Theorem operator_only_appends (v : value) (stream stream' : ostream) :
  operator_lshift v stream = Some stream' ->
  char_type stream' = char_type stream
  /\ exists t,
       render (char_type stream) v = Some t
       /\ buffer stream' = buffer stream ++ t
       /\ forall buf,
            operator_lshift v (OStream (char_type stream) buf)
            = Some (OStream (char_type stream) (buf ++ t)).
Proof.
  intros H.
  destruct (is_printable_as_container_v (type_of v)) eqn:Hp;
    [|unfold operator_lshift in H; by rewrite Hp in H].
  rewrite <- (insert_printable v Hp) in *. destruct stream as [W buf].
  rewrite (insert_render v W buf) in H.
  destruct (render W v) as [t|] eqn:Ht; [|done].
  simpl in H. injection H as <-. split; [done|]. exists t. split; [done|].
  split; [done|]. intros buf'. cbn [char_type].
  by rewrite (insert_render v W buf'), Ht.
Qed.

Lemma operator_only_appends_witness :
  operator_lshift sample_vector (OStream char (lit "v = "))
    = Some (OStream char (lit "v = [1, 2, 3, 4]"))
  /\ exists t,
       render char sample_vector = Some t
       /\ lit "v = [1, 2, 3, 4]" = lit "v = " ++ t.
Proof.
  split; [reflexivity|].
  destruct (operator_only_appends sample_vector (OStream char (lit "v = "))
              (OStream char (lit "v = [1, 2, 3, 4]")) eq_refl)
    as (_ & t & Ht & Hbuf & _).
  exists t. split; [exact Ht|exact Hbuf].
Defined.

(** X3.  Successive insertions concatenate: printing one container and then
    another on the same stream leaves the stream with the text of the first
    followed by the text of the second after what it held. *)
Theorem successive_insertions_concatenate (a b : value) (stream s1 s2 : ostream) :
  operator_lshift a stream = Some s1 ->
  operator_lshift b s1 = Some s2 ->
  exists ta tb,
    render (char_type stream) a = Some ta
    /\ render (char_type stream) b = Some tb
    /\ s2 = write (ta ++ tb) stream.
Proof.
  intros Ha Hb.
  assert (forall v s s', operator_lshift v s = Some s' ->
            exists t, render (char_type s) v = Some t /\ s' = write t s) as Hone.
  { intros v [W buf] s' H.
    destruct (is_printable_as_container_v (type_of v)) eqn:Hp;
      [|unfold operator_lshift in H; by rewrite Hp in H].
    rewrite <- (insert_printable v Hp), (insert_render v W buf) in H.
    cbn [char_type]. destruct (render W v) as [t|]; [|done].
    simpl in H. injection H as <-. by exists t. }
  destruct (Hone _ _ _ Ha) as (ta & Hta & ->).
  destruct (Hone _ _ _ Hb) as (tb & Htb & ->).
  exists ta, tb. split; [done|]. split; [done|].
  destruct stream as [W buf]. unfold write. simpl. by rewrite app_assoc.
Qed.

Lemma successive_insertions_concatenate_witness :
  operator_lshift sample_tuple cout = Some (write (lit "<1, 2, 3, 4>") cout)
  /\ operator_lshift sample_vector (write (lit "<1, 2, 3, 4>") cout)
     = Some (write (lit "<1, 2, 3, 4>[1, 2, 3, 4]") cout)
  /\ exists ta tb,
       render char sample_tuple = Some ta
       /\ render char sample_vector = Some tb
       /\ write (lit "<1, 2, 3, 4>[1, 2, 3, 4]") cout = write (ta ++ tb) cout.
Proof.
  split; [reflexivity|]. split; [reflexivity|].
  exact (successive_insertions_concatenate sample_tuple sample_vector cout
           (write (lit "<1, 2, 3, 4>") cout)
           (write (lit "<1, 2, 3, 4>[1, 2, 3, 4]") cout) eq_refl eq_refl).
Defined.

(** X4.  A value built from integers alone, in pairs, tuples and printable
    containers nested to any depth, prints on both a narrow and a wide
    stream, and prints the same characters on both. *)
Theorem plain_values_print_alike_narrow_and_wide (v : value) :
  plain v = true ->
  exists t, render char v = Some t /\ render wchar_t v = Some t.
Proof.
  intros [Hn Hw]%andb_prop. exists (plain_text char v). split.
  - by apply textual_render.
  - rewrite plain_text_narrow_wide. by apply textual_render.
Qed.

Lemma plain_values_print_alike_narrow_and_wide_witness :
  plain (v_range (std_set (std_tuple [t_int; t_int]))
           [v_tuple [v_int 1; v_int 2]; v_tuple [v_int 3; v_int 4]]) = true
  /\ exists t,
       render char
         (v_range (std_set (std_tuple [t_int; t_int]))
            [v_tuple [v_int 1; v_int 2]; v_tuple [v_int 3; v_int 4]]) = Some t
       /\ render wchar_t
            (v_range (std_set (std_tuple [t_int; t_int]))
               [v_tuple [v_int 1; v_int 2]; v_tuple [v_int 3; v_int 4]]) = Some t.
Proof.
  split; [reflexivity|].
  exact (plain_values_print_alike_narrow_and_wide
           (v_range (std_set (std_tuple [t_int; t_int]))
              [v_tuple [v_int 1; v_int 2]; v_tuple [v_int 3; v_int 4]]) eq_refl).
Defined.

(** ** The delimiter table and the shapes *)

(** X5.  For every container type the narrow and the wide delimiters hold
    the same characters; they differ in their character type alone. *)
Theorem narrow_and_wide_delimiters_hold_the_same_characters (T : CType) :
  exists n w,
    delimiters T char = Some n
    /\ delimiters T wchar_t = Some w
    /\ type n = char
    /\ type w = wchar_t
    /\ wrapper_members n = wrapper_members w.
Proof.
  destruct (delimiters_narrow_wide T) as (p & s & q & Hn & Hw).
  exists (Wrapper char p s q), (Wrapper wchar_t p s q). by rewrite Hn, Hw.
Qed.

(** X6.  The brackets tell the shape: a pair is framed with round brackets
    and a tuple with angle brackets, for all their component types, and
    nothing else is; whatever the type, prefix and suffix are one of the four
    matching pairs of brackets. *)
Theorem brackets_follow_the_shape (T : CType) (W : CharacterType) (w : wrapper) :
  delimiters T W = Some w ->
  (is_a_pair T = true <-> prefix w = lit "(")
  /\ (is_a_pair T = true <-> suffix w = lit ")")
  /\ (is_a_tuple T = true <-> prefix w = lit "<")
  /\ (is_a_tuple T = true <-> suffix w = lit ">")
  /\ In (prefix w, suffix w)
       [ (lit "[", lit "]"); (lit "{", lit "}");
         (lit "(", lit ")"); (lit "<", lit ">") ].
Proof.
  intros Hw.
  destruct W; try discriminate Hw; destruct T; simpl in Hw; simplify_eq;
    (repeat split; try done; try discriminate; vm_compute; tauto).
Qed.

Lemma brackets_follow_the_shape_witness :
  delimiters (std_tuple [t_int; t_double]) wchar_t
    = Some (Wrapper wchar_t (lit "<") (lit ", ") (lit ">"))
  /\ (is_a_tuple (std_tuple [t_int; t_double]) = true
      <-> prefix (Wrapper wchar_t (lit "<") (lit ", ") (lit ">")) = lit "<").
Proof.
  split; [reflexivity|].
  exact (proj1 (proj2 (proj2 (brackets_follow_the_shape
                                (std_tuple [t_int; t_double]) wchar_t
                                (Wrapper wchar_t (lit "<") (lit ", ") (lit ">"))
                                eq_refl)))).
Defined.

(** X7.  The header has delimiters for [char] and [wchar_t] alone: on a
    stream of another character type the operator prints no container. *)
Theorem other_character_types_print_nothing (v : value) (stream : ostream) :
  char_type stream <> char ->
  char_type stream <> wchar_t ->
  operator_lshift v stream = None.
Proof.
  intros Hn Hw. apply no_delimiters_no_print.
  destruct stream as [[] buf]; simpl in *; done.
Qed.

Lemma other_character_types_print_nothing_witness :
  char_type (OStream char32_t []) <> char
  /\ char_type (OStream char32_t []) <> wchar_t
  /\ operator_lshift sample_vector (OStream char32_t []) = None.
Proof.
  split; [discriminate|]. split; [discriminate|].
  exact (other_character_types_print_nothing sample_vector (OStream char32_t [])
           ltac:(discriminate) ltac:(discriminate)).
Defined.

(** ** The formatter a caller names, in general *)

(** X8.  A container or a pair printed with a formatter of the caller's,
    where the stream has an inserter for its element type, is framed and
    separated by the caller's tokens alone, also when it has no elements; its
    elements print as the stream prints them, nested containers with the
    default delimiters. *)
Theorem caller_tokens_frame_containers_and_pairs
    (W : CharacterType) (pre sep suf : text) (v : value) (rs : list text)
    (buf : text) :
  is_printable_as_container_v (type_of v) = true ->
  is_a_tuple (type_of v) = false ->
  well_shaped v = true ->
  insertable W (type_of v) = true ->
  mapM (render W) (elements_of v) = Some rs ->
  ToStream (Some (token_formatter W pre sep suf)) v (OStream W buf)
  = Some (OStream W (buf ++ pre ++ join sep rs ++ suf)).
Proof.
  intros Hp Htuple Hshape Hi Hrs.
  destruct (caller_formatter_is_used W pre sep suf) as [Hrange Hpair].
  destruct v as [| | | |first second|elements|T elements]; try discriminate Hp;
    try discriminate Htuple.
  - cbn [elements_of mapM] in Hrs.
    destruct (render W first) as [r1|] eqn:H1; [|discriminate Hrs].
    destruct (render W second) as [r2|] eqn:H2; [|discriminate Hrs].
    injection Hrs as <-. by rewrite (Hpair first second r1 r2 H1 H2 buf).
  - cbn [type_of] in *.
    rewrite (insertable_range insert T W elements Hp Hshape) in Hi.
    apply andb_prop in Hi as [_ Hinst].
    by rewrite (Hrange T elements rs Hp Hshape Hinst Hrs buf).
Qed.

Lemma caller_tokens_frame_containers_and_pairs_witness :
  insertable wchar_t (std_vector (std_pair t_int t_int)) = true
  /\ mapM (render wchar_t)
       (elements_of (v_range (std_vector (std_pair t_int t_int))
                       [v_pair (v_int 1) (v_int 2); v_pair (v_int 3) (v_int 4)]))
     = Some [lit "(1, 2)"; lit "(3, 4)"]
  /\ ToStream (Some dollar_formatter)
       (v_range (std_vector (std_pair t_int t_int))
          [v_pair (v_int 1) (v_int 2); v_pair (v_int 3) (v_int 4)]) wcout
     = Some (write (lit "$$ (1, 2) | (3, 4) $$") wcout).
Proof.
  split; [reflexivity|]. split; [reflexivity|].
  exact (caller_tokens_frame_containers_and_pairs wchar_t
           (lit "$$ ") (lit " | ") (lit " $$")
           (v_range (std_vector (std_pair t_int t_int))
              [v_pair (v_int 1) (v_int 2); v_pair (v_int 3) (v_int 4)])
           [lit "(1, 2)"; lit "(3, 4)"] []
           eq_refl eq_refl eq_refl eq_refl eq_refl).
Defined.

(** ** The recursion over the tuple types *)

(** X9.  [tuple_handler] for a list of [k] types prints the first [k]
    elements of the tuple it is handed, joined by the separator and without
    prefix or suffix, whichever types the list holds; handed a tuple with
    fewer than [k] elements it has no result. *)
Theorem tuple_handler_prints_the_leading_elements
    (T : CType) (Types : list CType) (elements : list value)
    (W : CharacterType) (w : wrapper) (rs : list text) (buf : text) :
  delimiters T W = Some w ->
  mapM (render W) elements = Some rs ->
  (length Types <= length elements ->
   tuple_handler insert T Types elements (OStream W buf)
   = Some (OStream W (buf ++ join (separator w) (take (length Types) rs))))
  /\ (length elements < length Types ->
      tuple_handler insert T Types elements (OStream W buf) = None).
Proof.
  intros Hw Hrs. split; intros Hlen.
  - rewrite (tuple_handler_emits insert W T w elements rs Types Hw); [done| |].
    + by apply rendered_render.
    + by rewrite <- (length_mapM _ _ _ Hrs).
  - destruct Types as [|t [|t' Ts']]; [simpl in Hlen; lia| |].
    + destruct elements; [done|simpl in Hlen; lia].
    + rewrite tuple_handler_cons. unfold and_then at 1.
      destruct ((_ >> _) _) as [s|]; [|done].
      unfold insert_get, get. by rewrite lookup_ge_None_2 by (simpl in *; lia).
Qed.

Lemma tuple_handler_prints_the_leading_elements_witness :
  delimiters (std_tuple [t_int; t_int; t_int]) char
    = Some (Wrapper char (lit "<") (lit ", ") (lit ">"))
  /\ mapM (render char) [v_int 7; v_int 8; v_int 9]
     = Some [lit "7"; lit "8"; lit "9"]
  /\ tuple_handler insert (std_tuple [t_int; t_int; t_int]) [t_int; t_int]
       [v_int 7; v_int 8; v_int 9] cout
     = Some (write (lit "7, 8") cout).
Proof.
  split; [reflexivity|]. split; [reflexivity|].
  exact (proj1 (tuple_handler_prints_the_leading_elements
                  (std_tuple [t_int; t_int; t_int]) [t_int; t_int]
                  [v_int 7; v_int 8; v_int 9] char
                  (Wrapper char (lit "<") (lit ", ") (lit ">"))
                  [lit "7"; lit "8"; lit "9"] [] eq_refl eq_refl)
           ltac:(simpl; lia)).
Defined.

(** ** The traits *)

(** X11.  The guards of the overloads: [is_not_a_tuple] is the negation of
    [is_a_tuple] on every type, no type is a pair and a tuple, and every pair
    and every tuple is printable whatever its components are. *)
Theorem overload_guards_partition_the_types (T : CType) :
  is_not_a_tuple T = negb (is_a_tuple T)
  /\ (is_a_pair T = true -> is_a_tuple T = false)
  /\ (is_a_pair T = true -> is_printable_as_container T = true)
  /\ (is_a_tuple T = true -> is_printable_as_container T = true).
Proof. by destruct T. Qed.

Lemma overload_guards_partition_the_types_witness :
  is_a_pair (std_pair (std_stack t_int) t_double) = true
  /\ is_printable_as_container (std_pair (std_stack t_int) t_double) = true.
Proof.
  split; [reflexivity|].
  exact (proj1 (proj2 (proj2 (overload_guards_partition_the_types
                                (std_pair (std_stack t_int) t_double))))
           eq_refl).
Defined.

(** ** Element types without an inserter *)



